(** * Task DAG planner, task state store and task dispatcher

    Shallow embedding of
    - [PlannerAgent.buildDag] / [flattenOutline]      (src/unnamed/part_006)
    - [TaskStateStore] and the SQL [list_ready_tasks]  (src/src/services/supabase-client.ts,
                                                        src/supabase/migrations/20241111_create_task_state.sql)
    - [TaskDispatcher]                                 (src/unnamed/part_008)

    JavaScript values are modelled by [jval]; [JUndef] is [undefined] (an absent
    property).  The database table is a finite map keyed by its primary key
    [(project_id, node_id)]; the dispatcher runs in a state monad over the table,
    the list of jobs added to the queues and a clock used for [updated_at]. *)

From Stdlib Require Import String List Bool ZArith.
From stdpp Require Import base gmap strings list sorting.

Open Scope string_scope.
Set Warnings "-register-all".

(* ------------------------------------------------------------------ *)
(** ** JavaScript values *)

Module Js.

Inductive jval : Type :=
| JUndef
| JNull
| JBool (b : bool)
| JNum (z : Z)
| JStr (s : string)
| JArr (xs : list jval)
| JObj (fields : list (string * jval)).

(** JS truthiness. *)
Definition truthy (v : jval) : bool :=
  match v with
  | JUndef | JNull => false
  | JBool b => b
  | JNum z => negb (Z.eqb z 0)
  | JStr s => negb (String.eqb s "")
  | JArr _ | JObj _ => true
  end.

(** [a ?? b] *)
Definition coalesce (a b : jval) : jval :=
  match a with
  | JUndef | JNull => b
  | _ => a
  end.

(** [o?.k]: property read; [undefined] on anything that has no such own property. *)
Definition jget (o : jval) (k : string) : jval :=
  match o with
  | JObj fs =>
      match List.find (fun kv => String.eqb (fst kv) k) fs with
      | Some kv => snd kv
      | None => JUndef
      end
  | _ => JUndef
  end.

(** [v === "lit"] *)
Definition is_str (v : jval) (s : string) : bool :=
  match v with
  | JStr s' => String.eqb s' s
  | _ => false
  end.

(** Template-literal rendering of an optional string: [`${x}`]. *)
Definition render (o : option string) : string :=
  match o with
  | Some s => s
  | None => "undefined"
  end.

Definition of_opt (o : option string) : jval :=
  match o with
  | Some s => JStr s
  | None => JUndef
  end.

(** Object literal written to JSON (a job payload, a JSONB column):
    properties whose value is [undefined] are dropped by the serialiser. *)
Definition jobj (fs : list (string * jval)) : jval :=
  JObj (List.filter (fun kv => match snd kv with JUndef => false | _ => true end) fs).

(** A [Record<string, any>] held in a JSONB column. *)
Definition obj := gmap string jval.

Definition oget (m : obj) (k : string) : jval :=
  match m !! k with Some v => v | None => JUndef end.

(** [{...m, k: v}] once serialised: an [undefined] value removes the key. *)
Definition oset (k : string) (v : jval) (m : obj) : obj :=
  match v with
  | JUndef => delete k m
  | _ => <[k := v]> m
  end.

(** Object literal [{k1: v1, k2: v2, ...}] as a stored record. *)
Definition omake (fs : list (string * jval)) : obj :=
  List.fold_left (fun m kv => oset (fst kv) (snd kv) m) fs ∅.

Definition of_obj (m : obj) : jval := JObj (map_to_list m).

End Js.
Import Js.

(* ------------------------------------------------------------------ *)
(** ** Outline and assets (inputs of the planner) *)

(** [OutlineNode]; [chapter_number] and [title] are optional because the
    outline arrives as JSON and nothing checks it at run time. *)
Inductive OutlineNode : Type := mkOutlineNode {
  chapter_number : option string;
  title : option string;
  govern_standard : option string;
  generate_prompt : bool;
  fixed_content : option string;
  enable_subtitles_generation : bool;
  outline_structure : option (list OutlineNode)
}.

Fixpoint outline_to_json (n : OutlineNode) : jval :=
  match n with
  | mkOutlineNode ch t gs gp fc es os =>
      jobj [("chapter_number", of_opt ch); ("title", of_opt t);
            ("govern_standard", of_opt gs); ("generate_prompt", JBool gp);
            ("fixed_content", of_opt fc); ("enable_subtitles_generation", JBool es);
            ("outline_structure",
              match os with
              | Some l => JArr (List.map outline_to_json l)
              | None => JUndef
              end)]
  end.

Module AssetRegistry.
(** [AssetIndexRecord] (asset-registry-service.ts); only the fields the
    planner reads carry their full meaning here. *)
Record AssetIndexRecord := {
  id : string;
  project_id : string;
  filename : string;
  storage_path : string;
  embed_ready : bool;
  table_ready : bool;
  status : string
}.
End AssetRegistry.

(* ------------------------------------------------------------------ *)
(** ** PlannerAgent (src/unnamed/part_006) *)

Module Planner.

Inductive TaskType : Type :=
| materialize_fixed
| prepare
| retrieve
| write
| verify
| assemble.

#[export] Instance TaskType_eq_dec : EqDecision TaskType.
Proof. solve_decision. Defined.

Record TaskNode := {
  id : string;
  type : TaskType;
  label : string;
  outlineId : option string;
  dependencies : list string;
  metadata : option obj
}.

Record TaskEdge := {
  from : string;
  to : string;
  reason : option string
}.

Record Summary := {
  total : nat;
  byType : TaskType -> nat
}.

Record TaskDag := {
  nodes : list TaskNode;
  edges : list TaskEdge;
  summary : Summary
}.

Record PlannerContext := {
  projectId : string;
  outline : list OutlineNode;
  assetsIndex : list AssetRegistry.AssetIndexRecord;
  projectContext : list (string * jval);
  metrics : jval;
  writingJournal : jval;
  evidenceMap : jval
}.

Record FlattenedOutlineNode := {
  node : OutlineNode;
  parentId : option string
}.

(** [flattenOutline]: pre-order walk, each entry carrying its parent's
    chapter number.  An [outline_structure] array is truthy even when empty. *)
Fixpoint walk_node (n : OutlineNode) (parent : option string) : list FlattenedOutlineNode :=
  {| node := n; parentId := parent |} ::
  match n with
  | mkOutlineNode ch _ _ _ _ _ (Some kids) =>
      (fix walk_kids (l : list OutlineNode) : list FlattenedOutlineNode :=
         match l with
         | [] => []
         | k :: rest => (walk_node k ch ++ walk_kids rest)%list
         end) kids
  | _ => []
  end.

(** [walk(nodes, parent)] *)
Definition walk (ns : list OutlineNode) (parent : option string) : list FlattenedOutlineNode :=
  List.flat_map (fun n => walk_node n parent) ns.

Definition flattenOutline (o : list OutlineNode) : list FlattenedOutlineNode :=
  walk o None.

(** [addNode]: the [index] map holds exactly the ids of [nodes], so
    [index.has(node.id)] is a membership test on the ids pushed so far. *)
Definition addNode (ns : list TaskNode) (n : TaskNode) : list TaskNode :=
  if existsb (String.eqb (id n)) (List.map id ns) then ns else (ns ++ [n])%list.

(** The nodes the loop body passes to [addNode] for one outline entry, in
    order, and the edges it pushes. *)
Definition plan_entry (ctx : PlannerContext) (hasEmbedReady hasTableReady : bool)
    (entry : FlattenedOutlineNode) : list TaskNode * list TaskEdge :=
  let outlineNode := node entry in
  let outlineId := chapter_number outlineNode in
  let oid := render outlineId in
  let baseLabel := oid ++ " " ++ render (title outlineNode) in
  let baseMetadata :=
    [("outlineId", of_opt outlineId); ("title", of_opt (title outlineNode));
     ("outlineNode", outline_to_json outlineNode); ("parentId", of_opt (parentId entry))] in
  if truthy (of_opt (fixed_content outlineNode)) then
    let materializeId := "materialize:" ++ oid in
    let assembleId := "assemble:" ++ oid in
    ([ {| id := materializeId; type := materialize_fixed;
          label := "渲染固定内容 " ++ baseLabel; outlineId := outlineId;
          dependencies := [];
          metadata := Some (omake (List.app baseMetadata
                        [("fixed", JBool true); ("fixedContent", of_opt (fixed_content outlineNode))])) |};
       {| id := assembleId; type := assemble;
          label := "装配章节 " ++ baseLabel; outlineId := outlineId;
          dependencies := [materializeId];
          metadata := Some (omake (List.app baseMetadata [("from", JStr "fixed")])) |} ],
     [ {| from := materializeId; to := assembleId; reason := Some "固定章节装配" |} ])
  else
    let prepareId := "prepare:" ++ oid in
    let retrieveId := "retrieve:" ++ oid in
    let writeId := "write:" ++ oid in
    let verifyId := "verify:" ++ oid in
    let assembleId := "assemble:" ++ oid in
    let prepareNode :=
      {| id := prepareId; type := prepare; label := "准备提示词 " ++ baseLabel;
         outlineId := outlineId; dependencies := [];
         metadata := Some (omake (List.app baseMetadata
           [("contextKeys", JArr (List.map (fun kv => JStr (fst kv)) (projectContext ctx)));
            ("projectContext", JObj (projectContext ctx));
            ("assetsAvailability", jobj [("embedReady", JBool hasEmbedReady);
                                         ("tableReady", JBool hasTableReady)])])) |} in
    let shouldCreateRetrieve := hasEmbedReady || hasTableReady in
    let requirements :=
      List.app (if hasEmbedReady then [JStr "embed_ready"] else [])
      (if hasTableReady then [JStr "table_ready"] else []) in
    let retrieveNode :=
      {| id := retrieveId; type := retrieve; label := "检索资料 " ++ baseLabel;
         outlineId := outlineId; dependencies := [prepareId];
         metadata := Some (omake (List.app baseMetadata
           [("requirements", JArr requirements);
            ("assetsReady", jobj [("embed", JBool hasEmbedReady); ("table", JBool hasTableReady)])])) |} in
    let lastDependency := if shouldCreateRetrieve then retrieveId else prepareId in
    let writeNode :=
      {| id := writeId; type := write; label := "写作章节 " ++ baseLabel;
         outlineId := outlineId; dependencies := [lastDependency];
         metadata := Some (omake (List.app baseMetadata
           [("promptSource", JStr prepareId);
            ("retrievalSource", if shouldCreateRetrieve then JStr retrieveId else JUndef);
            ("metricsRef", jget (metrics ctx) oid);
            ("writingJournalRef", jget (writingJournal ctx) oid)])) |} in
    let verifyNode :=
      {| id := verifyId; type := verify; label := "校验章节 " ++ baseLabel;
         outlineId := outlineId; dependencies := [writeId];
         metadata := Some (omake (List.app baseMetadata
           [("journalRef", jget (writingJournal ctx) oid);
            ("metricsRef", jget (metrics ctx) oid);
            ("evidenceRef", jget (evidenceMap ctx) oid)])) |} in
    let assembleNode :=
      {| id := assembleId; type := assemble; label := "装配章节 " ++ baseLabel;
         outlineId := outlineId; dependencies := [verifyId];
         metadata := Some (omake (List.app baseMetadata
           [("evidenceRef", jget (evidenceMap ctx) oid)])) |} in
    (prepareNode :: List.app (if shouldCreateRetrieve then [retrieveNode] else [])
       [writeNode; verifyNode; assembleNode],
     List.app (if shouldCreateRetrieve
      then [ {| from := prepareId; to := retrieveId; reason := Some "检索前置" |} ] else [])
     [ {| from := lastDependency; to := writeId; reason := Some "写作依赖" |};
       {| from := writeId; to := verifyId; reason := Some "校验前置" |};
       {| from := verifyId; to := assembleId; reason := Some "装配前置" |} ]).

(** One iteration of the [for (const entry of flattened)] loop. *)
Definition plan_step (ctx : PlannerContext) (hasEmbedReady hasTableReady : bool)
    (st : list TaskNode * list TaskEdge) (entry : FlattenedOutlineNode)
    : list TaskNode * list TaskEdge :=
  let planned := plan_entry ctx hasEmbedReady hasTableReady entry in
  (List.fold_left addNode (fst planned) (fst st), (snd st ++ snd planned)%list).

Definition finalAssembleId : string := "assemble:document".

Definition finalAssembleNode (assembleNodes : list TaskNode) : TaskNode :=
  {| id := finalAssembleId; type := assemble; label := "汇总装配整份报告";
     outlineId := None; dependencies := List.map id assembleNodes;
     metadata := Some (omake [("stage", JStr "final"); ("title", JStr "整份报告");
                              ("outlineId", JStr "document")]) |}.

Definition is_assemble (n : TaskNode) : bool := bool_decide (type n = assemble).

Definition buildSummary (ns : list TaskNode) : Summary :=
  {| total := length ns;
     byType := fun t => length (List.filter (fun n => bool_decide (type n = t)) ns) |}.

Definition buildDag (ctx : PlannerContext) : TaskDag :=
  let flattened := flattenOutline (outline ctx) in
  let hasEmbedReady := existsb AssetRegistry.embed_ready (assetsIndex ctx) in
  let hasTableReady := existsb AssetRegistry.table_ready (assetsIndex ctx) in
  let '(ns, es) := List.fold_left (plan_step ctx hasEmbedReady hasTableReady) flattened ([], []) in
  let assembleNodes := List.filter is_assemble ns in
  let '(ns', es') :=
    match assembleNodes with
    | [] => (ns, es)
    | _ => (addNode ns (finalAssembleNode assembleNodes),
            List.app es (List.map (fun n => {| from := id n; to := finalAssembleId;
                                        reason := Some "章节合并" |}) assembleNodes))
    end in
  {| nodes := ns'; edges := es'; summary := buildSummary ns' |}.

End Planner.

(** Sample planner inputs. *)
Module PlannerSamples.
Import Planner.

Definition chapter (c : option string) (t : option string) (fc : option string) : OutlineNode :=
  mkOutlineNode c t None false fc false None.

Definition context_of (o : list OutlineNode) (assets : list AssetRegistry.AssetIndexRecord)
  : PlannerContext :=
  {| projectId := "p"; outline := o; assetsIndex := assets; projectContext := [];
     metrics := JUndef; writingJournal := JUndef; evidenceMap := JUndef |}.

(** Chapter 1 is fixed content, chapter 2 is written; no asset is ready. *)
Definition fixed_ctx : PlannerContext :=
  context_of [chapter (Some "1") (Some "Intro") (Some "x");
              chapter (Some "2") (Some "Body") None] [].

Definition fixed_entry : FlattenedOutlineNode :=
  {| node := chapter (Some "1") (Some "Intro") (Some "x"); parentId := None |}.

Definition empty_ctx : PlannerContext := context_of [] [].

(** One outline entry with neither a chapter number nor a title. *)
Definition malformed_entry : FlattenedOutlineNode :=
  {| node := chapter None None None; parentId := None |}.

Definition malformed_ctx : PlannerContext := context_of [chapter None None None] [].

End PlannerSamples.

(* ------------------------------------------------------------------ *)
(** ** Facts about the planner's loop *)

Module PlannerFacts.
Import Planner.

Lemma append_cancel_l (s a b : string) : (s ++ a)%string = (s ++ b)%string -> a = b.
Proof. induction s as [|x s IH]; simpl; [auto|]. intros H. injection H. auto. Qed.

Lemma addNode_In ns m n : In n (addNode ns m) -> In n ns \/ n = m.
Proof.
  unfold addNode. destruct (existsb _ _); [auto|].
  rewrite in_app_iff. simpl. intuition.
Qed.

Lemma addNode_mono ns m n : In n ns -> In n (addNode ns m).
Proof. unfold addNode. destruct (existsb _ _); [auto|]. intros. apply in_or_app. auto. Qed.

Lemma addNode_id ns m : In (id m) (List.map id (addNode ns m)).
Proof.
  unfold addNode. destruct (existsb _ _) eqn:E.
  - apply existsb_exists in E as [x [Hx Hxe]]. apply String.eqb_eq in Hxe. subst. exact Hx.
  - rewrite map_app, in_app_iff. simpl. auto.
Qed.

Lemma addNode_fresh ns m : ~ In (id m) (List.map id ns) -> addNode ns m = (ns ++ [m])%list.
Proof.
  unfold addNode. destruct (existsb _ _) eqn:E; [|auto].
  apply existsb_exists in E as [x [Hx Hxe]]. apply String.eqb_eq in Hxe. subst. contradiction.
Qed.

Lemma add_all_In l ns n : In n (List.fold_left addNode l ns) -> In n ns \/ In n l.
Proof.
  revert ns. induction l as [|a l IH]; simpl; intros ns H; auto.
  apply IH in H as [H|H]; auto. apply addNode_In in H as [H|H]; auto.
Qed.

Lemma add_all_mono l ns n : In n ns -> In n (List.fold_left addNode l ns).
Proof.
  revert ns. induction l as [|a l IH]; simpl; intros ns H; auto.
  apply IH, addNode_mono, H.
Qed.

Lemma add_all_mono_id l ns x :
  In x (List.map id ns) -> In x (List.map id (List.fold_left addNode l ns)).
Proof.
  intros H. apply in_map_iff in H as [n [<- Hn]]. apply in_map, add_all_mono, Hn.
Qed.

Lemma add_all_ids l ns m : In m l -> In (id m) (List.map id (List.fold_left addNode l ns)).
Proof.
  revert ns. induction l as [|a l IH]; simpl; intros ns H; [contradiction|].
  destruct H as [<-|H]; [|auto].
  apply add_all_mono_id, addNode_id.
Qed.

Lemma add_all_fresh l ns :
  NoDup (List.map id (ns ++ l)) -> List.fold_left addNode l ns = (ns ++ l)%list.
Proof.
  revert ns. induction l as [|a l IH]; simpl; intros ns H.
  - by rewrite app_nil_r.
  - rewrite addNode_fresh.
    + rewrite IH; [by rewrite <- app_assoc|]. by rewrite <- app_assoc.
    + rewrite map_app in H. simpl in H. apply NoDup_app in H as (_ & Hd & _).
      intros Hin. apply (Hd (id a)); [by apply list_elem_of_In | left].
Qed.

Section Loop.
Variables (ctx : PlannerContext) (hE hT : bool).

Definition loop (es : list FlattenedOutlineNode) (st : list TaskNode * list TaskEdge) :=
  List.fold_left (plan_step ctx hE hT) es st.

Lemma loop_In es st n :
  In n (fst (loop es st)) ->
  In n (fst st) \/ exists e, In e es /\ In n (fst (plan_entry ctx hE hT e)).
Proof.
  unfold loop. revert st. induction es as [|e es IH]; simpl; intros st H; auto.
  apply IH in H as [H|[e' [He' Hn]]]; eauto.
  unfold plan_step in H. simpl in H. apply add_all_In in H as [H|H]; eauto.
Qed.

Lemma loop_mono_id es st x :
  In x (List.map id (fst st)) -> In x (List.map id (fst (loop es st))).
Proof.
  unfold loop. revert st. induction es as [|e es IH]; simpl; intros st H; auto.
  apply IH. unfold plan_step. simpl. apply add_all_mono_id, H.
Qed.

Lemma loop_ids es st e m :
  In e es -> In m (fst (plan_entry ctx hE hT e)) -> In (id m) (List.map id (fst (loop es st))).
Proof.
  unfold loop. revert st. induction es as [|e' es IH]; simpl; intros st He Hm; [contradiction|].
  destruct He as [<-|He]; [|auto].
  apply loop_mono_id. unfold plan_step. simpl. apply add_all_ids, Hm.
Qed.

Lemma loop_edges es st :
  snd (loop es st) = (snd st ++ List.flat_map (fun e => snd (plan_entry ctx hE hT e)) es)%list.
Proof.
  unfold loop. revert st. induction es as [|e es IH]; simpl; intros st.
  - by rewrite app_nil_r.
  - rewrite IH. unfold plan_step. simpl. by rewrite <- app_assoc.
Qed.

Lemma loop_fresh es st :
  NoDup (List.map id (fst st ++ List.flat_map (fun e => fst (plan_entry ctx hE hT e)) es)) ->
  fst (loop es st) = (fst st ++ List.flat_map (fun e => fst (plan_entry ctx hE hT e)) es)%list.
Proof.
  unfold loop. revert st. induction es as [|e es IH]; simpl; intros st H.
  - by rewrite app_nil_r.
  - assert (Hst : fst (plan_step ctx hE hT st e) = (fst st ++ fst (plan_entry ctx hE hT e))%list).
    { unfold plan_step. simpl. apply add_all_fresh.
      rewrite app_assoc, map_app in H. apply NoDup_app in H as (H1 & _ & _). exact H1. }
    rewrite IH; rewrite Hst; [by rewrite app_assoc|]. rewrite <- app_assoc. exact H.
Qed.

End Loop.
End PlannerFacts.

Module PlannerShape.
Import Planner PlannerFacts.

(** The seven node shapes one outline entry can contribute, for chapter key [c]. *)
Definition chapter_shape (shouldRetrieve : bool) (c : string) (n : TaskNode) : Prop :=
  (id n = "materialize:" ++ c /\ type n = materialize_fixed /\ dependencies n = []) \/
  (id n = "assemble:" ++ c /\ type n = assemble /\ dependencies n = ["materialize:" ++ c]) \/
  (id n = "prepare:" ++ c /\ type n = prepare /\ dependencies n = []) \/
  (id n = "retrieve:" ++ c /\ type n = retrieve /\ dependencies n = ["prepare:" ++ c]
     /\ shouldRetrieve = true) \/
  (id n = "write:" ++ c /\ type n = write /\
     dependencies n = [if shouldRetrieve then "retrieve:" ++ c else "prepare:" ++ c]) \/
  (id n = "verify:" ++ c /\ type n = verify /\ dependencies n = ["write:" ++ c]) \/
  (id n = "assemble:" ++ c /\ type n = assemble /\ dependencies n = ["verify:" ++ c]).

Definition chap (e : FlattenedOutlineNode) : string := render (chapter_number (node e)).

Definition fixed (e : FlattenedOutlineNode) : bool := truthy (of_opt (fixed_content (node e))).

Ltac pick_shape :=
  first [ left; split_and!; reflexivity | right; pick_shape | split_and!; reflexivity ].

Lemma plan_entry_shape ctx hE hT e n :
  In n (fst (plan_entry ctx hE hT e)) -> chapter_shape (hE || hT) (chap e) n.
Proof.
  unfold plan_entry, chapter_shape, chap. cbv zeta.
  destruct (truthy _).
  - simpl. intros [<-|[<-|[]]]; simpl; pick_shape.
  - destruct (hE || hT) eqn:Ha; simpl.
    + intros [<-|[<-|[<-|[<-|[<-|[]]]]]]; simpl; pick_shape.
    + intros [<-|[<-|[<-|[<-|[]]]]]; simpl; pick_shape.
Qed.

Lemma plan_entry_ids_fixed ctx hE hT e :
  fixed e = true ->
  List.map id (fst (plan_entry ctx hE hT e)) = ["materialize:" ++ chap e; "assemble:" ++ chap e].
Proof. unfold fixed, chap, plan_entry. cbv zeta. intros ->. reflexivity. Qed.

Lemma plan_entry_ids_chain ctx hE hT e :
  fixed e = false ->
  List.map id (fst (plan_entry ctx hE hT e)) =
    ("prepare:" ++ chap e) :: List.app (if hE || hT then ["retrieve:" ++ chap e] else [])
      ["write:" ++ chap e; "verify:" ++ chap e; "assemble:" ++ chap e].
Proof.
  unfold fixed, chap, plan_entry. cbv zeta. intros ->. simpl.
  destruct (hE || hT); reflexivity.
Qed.

Lemma finalAssembleId_eq : finalAssembleId = "assemble:" ++ "document".
Proof. reflexivity. Qed.

(** [buildDag] as the planning loop followed by the document sink. *)
Lemma buildDag_spec ctx :
  let hE := existsb AssetRegistry.embed_ready (assetsIndex ctx) in
  let hT := existsb AssetRegistry.table_ready (assetsIndex ctx) in
  let L := loop ctx hE hT (flattenOutline (outline ctx)) ([], []) in
  let A := List.filter is_assemble (fst L) in
  nodes (buildDag ctx) =
    match A with [] => fst L | _ => addNode (fst L) (finalAssembleNode A) end /\
  edges (buildDag ctx) =
    match A with
    | [] => snd L
    | _ => List.app (snd L) (List.map (fun n => {| from := id n; to := finalAssembleId;
                                                   reason := Some "章节合并" |}) A)
    end.
Proof.
  unfold buildDag, loop. cbv zeta.
  destruct (List.fold_left _ _ _) as [ns es]. simpl.
  destruct (List.filter is_assemble ns); auto.
Qed.

(** Every node of the DAG comes from one outline entry, or is the sink. *)
Lemma buildDag_node_origin ctx n :
  let hE := existsb AssetRegistry.embed_ready (assetsIndex ctx) in
  let hT := existsb AssetRegistry.table_ready (assetsIndex ctx) in
  In n (nodes (buildDag ctx)) ->
  (exists e, In e (flattenOutline (outline ctx)) /\ chapter_shape (hE || hT) (chap e) n) \/
  (id n = finalAssembleId /\ type n = assemble /\
   forall d, In d (dependencies n) -> exists c, d = "assemble:" ++ c).
Proof.
  cbv zeta. destruct (buildDag_spec ctx) as [Hn _]. rewrite Hn. clear Hn.
  set (L := loop _ _ _ _ _).
  assert (HL : forall m, In m (fst L) ->
    exists e, In e (flattenOutline (outline ctx)) /\
      chapter_shape (existsb AssetRegistry.embed_ready (assetsIndex ctx) ||
                     existsb AssetRegistry.table_ready (assetsIndex ctx)) (chap e) m).
  { intros m Hm. apply (loop_In ctx) in Hm as [[]|[e [He Hm]]].
    exists e. split; [exact He|]. eapply plan_entry_shape, Hm. }
  destruct (List.filter is_assemble (fst L)) as [|a A] eqn:HA; intros H.
  - left. apply HL, H.
  - apply addNode_In in H as [H| ->]; [left; apply HL, H|].
    right. split_and!; [reflexivity|reflexivity|].
    intros d Hd. change (In d (List.map id (a :: A))) in Hd.
    apply in_map_iff in Hd as [m [<- Hm]].
    rewrite <- HA in Hm. apply filter_In in Hm as [Hm Ha].
    unfold is_assemble in Ha. apply bool_decide_eq_true in Ha.
    destruct (HL m Hm) as [e [_ Hs]]. exists (chap e).
    unfold chapter_shape in Hs.
    destruct Hs as [(? & Ht & ?)|[(? & Ht & ?)|[(? & Ht & ?)|[(? & Ht & ?)|
                   [(? & Ht & ?)|[(? & Ht & ?)|(? & Ht & ?)]]]]]];
      rewrite Ha in Ht; try discriminate; assumption.
Qed.

Lemma buildDag_loop_ids ctx x :
  let hE := existsb AssetRegistry.embed_ready (assetsIndex ctx) in
  let hT := existsb AssetRegistry.table_ready (assetsIndex ctx) in
  In x (List.map id (fst (loop ctx hE hT (flattenOutline (outline ctx)) ([], [])))) ->
  In x (List.map id (nodes (buildDag ctx))).
Proof.
  cbv zeta. destruct (buildDag_spec ctx) as [Hn _]. rewrite Hn.
  destruct (List.filter _ _); [auto|].
  intros H. apply in_map_iff in H as [m [<- Hm]]. apply in_map, addNode_mono, Hm.
Qed.

End PlannerShape.

(* ------------------------------------------------------------------ *)
(** ** Claims about [buildDag] *)

Module PlannerClaims.
Import Planner PlannerFacts PlannerShape PlannerSamples.

Ltac id_clash H :=
  first [ apply append_cancel_l in H | simpl in H; discriminate H ].

Ltac destruct_shape Hs :=
  let Hi := fresh "Hid" in let Ht := fresh "Hty" in let Hd := fresh "Hdeps" in
  let Hr := fresh "Hret" in
  destruct Hs as [(Hi & Ht & Hd)|[(Hi & Ht & Hd)|[(Hi & Ht & Hd)|[(Hi & Ht & Hd & Hr)|
                 [(Hi & Ht & Hd)|[(Hi & Ht & Hd)|(Hi & Ht & Hd)]]]]]].

Lemma node_with_id ctx x :
  In x (List.map id (nodes (buildDag ctx))) -> exists n, In n (nodes (buildDag ctx)) /\ id n = x.
Proof. intros H. apply in_map_iff in H as [n [Hn Hin]]. eauto. Qed.

Lemma entry_id_in_dag ctx e x :
  In e (flattenOutline (outline ctx)) ->
  In x (List.map id (fst (plan_entry ctx (existsb AssetRegistry.embed_ready (assetsIndex ctx))
                                          (existsb AssetRegistry.table_ready (assetsIndex ctx)) e))) ->
  In x (List.map id (nodes (buildDag ctx))).
Proof.
  intros He Hx. apply buildDag_loop_ids.
  apply in_map_iff in Hx as [m [<- Hm]]. eapply loop_ids; eauto.
Qed.

(** C6.  Whether a [retrieve] stage exists is decided once for the whole
    project, by an OR over all assets of [embed_ready] and of [table_ready]:
    when no asset has either flag there is no [retrieve] node at all and every
    [write] node depends exactly on its chapter's [prepare] node; when some asset
    has one, every non-fixed chapter gets a [retrieve] node depending on its
    [prepare] node, and every [write] node depends exactly on its chapter's
    [retrieve] node. *)
Theorem buildDag_retrieval_is_project_wide (ctx : PlannerContext) :
  let hasAny := existsb AssetRegistry.embed_ready (assetsIndex ctx) ||
                existsb AssetRegistry.table_ready (assetsIndex ctx) in
  let dag := buildDag ctx in
  (hasAny = false ->
     (forall n, In n (nodes dag) -> type n <> retrieve) /\
     (forall n, In n (nodes dag) -> type n = write ->
        exists c, id n = "write:" ++ c /\ dependencies n = ["prepare:" ++ c])) /\
  (hasAny = true ->
     (forall e, In e (flattenOutline (outline ctx)) -> fixed e = false ->
        (exists r, In r (nodes dag) /\ id r = "retrieve:" ++ chap e /\ type r = retrieve /\
                   dependencies r = ["prepare:" ++ chap e]) /\
        (exists w, In w (nodes dag) /\ id w = "write:" ++ chap e /\ type w = write /\
                   dependencies w = ["retrieve:" ++ chap e])) /\
     (forall n, In n (nodes dag) -> type n = write ->
        exists c, id n = "write:" ++ c /\ dependencies n = ["retrieve:" ++ c])).
Proof.
  cbv zeta. split.
  - intros Hf. split.
    + intros n Hn. destruct (buildDag_node_origin ctx n Hn) as [[e [_ Hs]]|(_ & Ht & _)].
      * rewrite Hf in Hs. destruct_shape Hs; rewrite Hty; congruence.
      * rewrite Ht. discriminate.
    + intros n Hn Hw. destruct (buildDag_node_origin ctx n Hn) as [[e [_ Hs]]|(_ & Ht & _)].
      * rewrite Hf in Hs. destruct_shape Hs; try congruence.
        exists (chap e). split; assumption.
      * congruence.
  - intros Ht. split.
    + intros e He Hfx.
      pose proof (plan_entry_ids_chain ctx (existsb AssetRegistry.embed_ready (assetsIndex ctx))
                    (existsb AssetRegistry.table_ready (assetsIndex ctx)) e Hfx) as Hids.
      rewrite Ht in Hids. simpl in Hids.
      split.
      * assert (Hx : In ("retrieve:" ++ chap e) (List.map id (nodes (buildDag ctx)))).
        { eapply entry_id_in_dag; [exact He|]. rewrite Hids. simpl. auto. }
        apply node_with_id in Hx as [r [Hr Hrid]]. exists r. split; [exact Hr|].
        destruct (buildDag_node_origin ctx r Hr) as [[e' [_ Hs]]|(Hid & _ & _)].
        -- destruct_shape Hs; rewrite Hid in Hrid; id_clash Hrid.
           rewrite <- Hrid. auto.
        -- rewrite Hid, finalAssembleId_eq in Hrid. id_clash Hrid.
      * assert (Hx : In ("write:" ++ chap e) (List.map id (nodes (buildDag ctx)))).
        { eapply entry_id_in_dag; [exact He|]. rewrite Hids. simpl. auto 6. }
        apply node_with_id in Hx as [w [Hw Hwid]]. exists w. split; [exact Hw|].
        destruct (buildDag_node_origin ctx w Hw) as [[e' [_ Hs]]|(Hid & _ & _)].
        -- rewrite Ht in Hs. destruct_shape Hs; rewrite Hid in Hwid; id_clash Hwid.
           rewrite <- Hwid. auto.
        -- rewrite Hid, finalAssembleId_eq in Hwid. id_clash Hwid.
    + intros n Hn Hw. destruct (buildDag_node_origin ctx n Hn) as [[e [_ Hs]]|(_ & Hty & _)].
      * rewrite Ht in Hs. destruct_shape Hs; try congruence.
        exists (chap e). split; assumption.
      * congruence.
Qed.


Lemma filter_all_false {A} (f : A -> bool) (l : list A) :
  (forall x, In x l -> f x = false) -> List.filter f l = [].
Proof.
  induction l as [|a l IH]; simpl; intros H; [reflexivity|].
  rewrite H by auto. apply IH. auto.
Qed.

(** Ids of the six per-chapter task kinds for chapter key [c]. *)
Definition chapter_ids (c : string) : list string :=
  ["materialize:" ++ c; "prepare:" ++ c; "retrieve:" ++ c;
   "write:" ++ c; "verify:" ++ c; "assemble:" ++ c].

Definition of_chapter (c : string) (n : TaskNode) : bool :=
  existsb (String.eqb (id n)) (chapter_ids c).

Lemma shape_same_chapter b b' c c' n m :
  chapter_shape b c n -> chapter_shape b' c' m -> id n = id m -> c = c'.
Proof.
  intros Hn Hm Heq.
  destruct_shape Hn; destruct_shape Hm; rewrite Hid, Hid0 in Heq; id_clash Heq; exact Heq.
Qed.

Lemma of_chapter_shape b c c' n :
  chapter_shape b c' n -> of_chapter c n = true -> c' = c.
Proof.
  intros Hs Hc. unfold of_chapter in Hc.
  apply existsb_exists in Hc as [x [Hx Hxe]]. apply String.eqb_eq in Hxe.
  unfold chapter_ids in Hx.
  destruct_shape Hs; rewrite Hid in Hxe;
    (destruct Hx as [<-|[<-|[<-|[<-|[<-|[<-|[]]]]]]]; id_clash Hxe; exact Hxe).
Qed.

Lemma plan_entry_ids_NoDup ctx hE hT e : NoDup (List.map id (fst (plan_entry ctx hE hT e))).
Proof.
  apply NoDup_ListNoDup.
  destruct (fixed e) eqn:Hf.
  - rewrite plan_entry_ids_fixed by exact Hf.
    repeat constructor; simpl; intros H; repeat destruct H as [H|H]; try contradiction;
      simpl in H; discriminate H.
  - rewrite plan_entry_ids_chain by exact Hf. destruct (hE || hT); simpl;
    repeat constructor; simpl; intros H; repeat destruct H as [H|H]; try contradiction;
      simpl in H; discriminate H.
Qed.

Lemma flat_ids_NoDup ctx hE hT (l : list FlattenedOutlineNode) :
  NoDup (List.map chap l) ->
  NoDup (List.map id (List.flat_map (fun e => fst (plan_entry ctx hE hT e)) l)).
Proof.
  induction l as [|e l IH]; simpl; intros H; [constructor|].
  apply NoDup_cons in H as [Hnot Hl].
  rewrite map_app. apply NoDup_app. split_and!.
  - apply plan_entry_ids_NoDup.
  - intros x Hx Hx'.
    apply list_elem_of_In, in_map_iff in Hx as [n [<- Hn]].
    apply list_elem_of_In, in_map_iff in Hx' as [m [Hnm Hm]].
    apply in_flat_map in Hm as [e' [He' Hm]].
    apply plan_entry_shape in Hn, Hm.
    pose proof (shape_same_chapter _ _ _ _ _ _ Hm Hn Hnm) as Hc.
    apply Hnot. apply list_elem_of_In. rewrite <- Hc. apply in_map, He'.
  - apply IH, Hl.
Qed.

Lemma buildDag_loop_fresh ctx :
  let hE := existsb AssetRegistry.embed_ready (assetsIndex ctx) in
  let hT := existsb AssetRegistry.table_ready (assetsIndex ctx) in
  NoDup (List.map chap (flattenOutline (outline ctx))) ->
  fst (loop ctx hE hT (flattenOutline (outline ctx)) ([], [])) =
    List.flat_map (fun e => fst (plan_entry ctx hE hT e)) (flattenOutline (outline ctx)).
Proof.
  intros hE hT H. rewrite loop_fresh; [reflexivity|]. simpl. apply flat_ids_NoDup, H.
Qed.

Lemma filter_other_chapters ctx hE hT c (l : list FlattenedOutlineNode) :
  (forall e, In e l -> chap e <> c) ->
  List.filter (of_chapter c) (List.flat_map (fun e => fst (plan_entry ctx hE hT e)) l) = [].
Proof.
  induction l as [|e l IH]; simpl; intros H; [reflexivity|].
  rewrite List.filter_app, IH by auto. rewrite app_nil_r.
  apply filter_all_false. intros n Hn.
  destruct (of_chapter c n) eqn:Hc; [|reflexivity].
  exfalso. apply (H e); [left; reflexivity|].
  eapply of_chapter_shape; [eapply plan_entry_shape, Hn | exact Hc].
Qed.

Lemma in_edges_of_loop ctx e ed :
  In e (flattenOutline (outline ctx)) ->
  In ed (snd (plan_entry ctx (existsb AssetRegistry.embed_ready (assetsIndex ctx))
                            (existsb AssetRegistry.table_ready (assetsIndex ctx)) e)) ->
  In ed (edges (buildDag ctx)).
Proof.
  intros He Hed. destruct (buildDag_spec ctx) as [_ Hes]. rewrite Hes. clear Hes.
  assert (Hl : In ed (snd (loop ctx (existsb AssetRegistry.embed_ready (assetsIndex ctx))
                 (existsb AssetRegistry.table_ready (assetsIndex ctx))
                 (flattenOutline (outline ctx)) ([], [])))).
  { rewrite loop_edges. simpl. apply in_flat_map. eauto. }
  destruct (List.filter _ _); [exact Hl|]. apply in_or_app. auto.
Qed.

(** C8.  For an outline whose chapter numbers are pairwise distinct (the
    data model's uniqueness invariant), an entry carrying (truthy)
    [fixed_content] yields exactly two nodes among the per-chapter ids of its
    chapter: a [materialize_fixed] node with no dependencies and an
    [assemble] node depending on it; no [prepare], [retrieve], [write] or
    [verify] node exists for that chapter, and the edge
    [materialize:c -> assemble:c] is in the edge list. *)
Theorem buildDag_fixed_content_two_nodes (ctx : PlannerContext) (e : FlattenedOutlineNode) :
  NoDup (List.map chap (flattenOutline (outline ctx))) ->
  In e (flattenOutline (outline ctx)) ->
  fixed e = true ->
  let c := chap e in
  let dag := buildDag ctx in
  List.map (fun n => (id n, type n, dependencies n)) (List.filter (of_chapter c) (nodes dag)) =
    [("materialize:" ++ c, materialize_fixed, []);
     ("assemble:" ++ c, assemble, ["materialize:" ++ c])] /\
  In {| from := "materialize:" ++ c; to := "assemble:" ++ c; reason := Some "固定章节装配" |}
     (edges dag).
Proof.
  intros Hnd He Hf. cbv zeta. split.
  2:{ eapply in_edges_of_loop; [exact He|].
      unfold plan_entry. cbv zeta. unfold fixed in Hf. rewrite Hf. left. reflexivity. }
  destruct (buildDag_spec ctx) as [Hn _]. rewrite Hn. clear Hn.
  rewrite buildDag_loop_fresh by exact Hnd.
  set (hE := existsb AssetRegistry.embed_ready (assetsIndex ctx)).
  set (hT := existsb AssetRegistry.table_ready (assetsIndex ctx)).
  set (F := List.flat_map (fun e => fst (plan_entry ctx hE hT e)) (flattenOutline (outline ctx))).
  assert (HaF : In ("assemble:" ++ chap e) (List.map id F)).
  { unfold F. apply in_map_iff.
    pose proof (plan_entry_ids_fixed ctx hE hT e Hf) as Hids.
    assert (Hx : In ("assemble:" ++ chap e) (List.map id (fst (plan_entry ctx hE hT e))))
      by (rewrite Hids; simpl; auto).
    apply in_map_iff in Hx as [m [Hm Hmin]]. exists m. split; [exact Hm|].
    apply in_flat_map. eauto. }
  assert (Hsame : List.filter (of_chapter (chap e))
                    (match List.filter is_assemble F with
                     | [] => F
                     | _ => addNode F (finalAssembleNode (List.filter is_assemble F))
                     end) = List.filter (of_chapter (chap e)) F).
  { destruct (List.filter is_assemble F) as [|a A]; [reflexivity|].
    unfold addNode.
    destruct (existsb (String.eqb (id (finalAssembleNode (a :: A)))) (List.map id F)) eqn:Hx;
      [reflexivity|].
    rewrite List.filter_app. simpl.
    destruct (of_chapter (chap e) (finalAssembleNode (a :: A))) eqn:Hc; [|by rewrite app_nil_r].
    exfalso. unfold of_chapter in Hc. apply existsb_exists in Hc as [y [Hy Hye]].
    apply String.eqb_eq in Hye.
    change (id (finalAssembleNode (a :: A))) with finalAssembleId in Hye.
    rewrite finalAssembleId_eq in Hye. unfold chapter_ids in Hy.
    destruct Hy as [<-|[<-|[<-|[<-|[<-|[<-|[]]]]]]]; id_clash Hye.
    rewrite <- Hye in HaF. simpl in Hx.
    assert (Htrue : existsb (String.eqb ("assemble:" ++ "document")) (List.map id F) = true).
    { apply existsb_exists. exists ("assemble:" ++ "document"). split; [exact HaF|].
      apply String.eqb_refl. }
    simpl in Htrue. rewrite Htrue in Hx. discriminate Hx. }
  rewrite Hsame. clear Hsame.
  apply in_split in He as [l1 [l2 Hsplit]].
  unfold F. rewrite Hsplit. rewrite Hsplit in Hnd.
  rewrite map_app in Hnd. simpl in Hnd.
  apply NoDup_app in Hnd as (_ & Hdisj & Hnd2).
  apply NoDup_cons in Hnd2 as [Hnot2 _].
  rewrite flat_map_app. simpl.
  rewrite !List.filter_app.
  rewrite (filter_other_chapters ctx hE hT (chap e) l1).
  2:{ intros e' He' Heq. apply (Hdisj (chap e)).
      - apply list_elem_of_In. rewrite <- Heq. apply in_map, He'.
      - left. }
  rewrite (filter_other_chapters ctx hE hT (chap e) l2).
  2:{ intros e' He' Heq. apply Hnot2. apply list_elem_of_In. rewrite <- Heq. apply in_map, He'. }
  rewrite app_nil_r. simpl.
  unfold plan_entry. cbv zeta. unfold fixed in Hf. rewrite Hf.
  unfold of_chapter, chapter_ids. simpl. fold (chap e).
  rewrite !String.eqb_refl. reflexivity.
Qed.

Lemma assemble_ids_of_entry ctx hE hT e :
  List.map id (List.filter is_assemble (fst (plan_entry ctx hE hT e))) = ["assemble:" ++ chap e].
Proof.
  unfold plan_entry, chap. cbv zeta.
  destruct (truthy _); [reflexivity|]. destruct (hE || hT); reflexivity.
Qed.

Lemma assemble_ids_flat ctx hE hT (l : list FlattenedOutlineNode) :
  List.map id (List.filter is_assemble (List.flat_map (fun e => fst (plan_entry ctx hE hT e)) l)) =
  List.map (fun e => "assemble:" ++ chap e) l.
Proof.
  induction l as [|e l IH]; simpl; [reflexivity|].
  rewrite List.filter_app, map_app, assemble_ids_of_entry, IH. reflexivity.
Qed.

Lemma entry_successor ctx hE hT e n :
  In n (fst (plan_entry ctx hE hT e)) -> type n <> assemble ->
  Exists (fun m => In (id n) (dependencies m)) (fst (plan_entry ctx hE hT e)).
Proof.
  unfold plan_entry. cbv zeta.
  destruct (truthy _); [|destruct (hE || hT)]; simpl; intros H Ht;
    repeat destruct H as [<-|H]; try contradiction; try (simpl in Ht; congruence);
    repeat (first [apply Exists_cons_hd; simpl; left; reflexivity | apply Exists_cons_tl]).
Qed.

(** C7 (amended).  For an outline whose chapter numbers are pairwise distinct
    and differ from ["document"]: an empty outline yields no node and no edge
    (in particular no sink); a non-empty one yields an [assemble:document]
    node whose dependencies are exactly the per-chapter [assemble:<c>] ids (in
    outline order), with an edge [assemble:<c> -> assemble:document] for every
    chapter; no node depends on the sink, and every other node is a
    dependency of some node, so the sink is the unique terminal node. *)
Theorem buildDag_document_sink (ctx : PlannerContext) :
  NoDup (List.map chap (flattenOutline (outline ctx))) ->
  (forall e, In e (flattenOutline (outline ctx)) -> chap e <> "document") ->
  let dag := buildDag ctx in
  (flattenOutline (outline ctx) = [] -> nodes dag = [] /\ edges dag = []) /\
  (flattenOutline (outline ctx) <> [] ->
     exists s, In s (nodes dag) /\ id s = finalAssembleId /\ type s = assemble /\
       dependencies s = List.map (fun e => "assemble:" ++ chap e) (flattenOutline (outline ctx)) /\
       (forall e, In e (flattenOutline (outline ctx)) ->
          In {| from := "assemble:" ++ chap e; to := finalAssembleId; reason := Some "章节合并" |}
             (edges dag)) /\
       (forall n, In n (nodes dag) -> ~ In finalAssembleId (dependencies n)) /\
       (forall n, In n (nodes dag) -> id n <> finalAssembleId ->
          exists m, In m (nodes dag) /\ In (id n) (dependencies m))).
Proof.
  intros Hnd Hdoc. cbv zeta.
  destruct (buildDag_spec ctx) as [Hn Hes]. cbv zeta in Hn, Hes.
  rewrite buildDag_loop_fresh in Hn, Hes by exact Hnd.
  rewrite loop_edges in Hes. simpl in Hes.
  set (hE := existsb AssetRegistry.embed_ready (assetsIndex ctx)) in *.
  set (hT := existsb AssetRegistry.table_ready (assetsIndex ctx)) in *.
  set (fl := flattenOutline (outline ctx)) in *.
  set (F := List.flat_map (fun e => fst (plan_entry ctx hE hT e)) fl) in *.
  pose proof (assemble_ids_flat ctx hE hT fl) as HA. fold F in HA.
  split.
  - intros Hnil. unfold F in Hn, Hes. rewrite Hnil in Hn, Hes. simpl in Hn, Hes. auto.
  - intros Hne.
    destruct (List.filter is_assemble F) as [|a A] eqn:HAeq.
    { simpl in HA. symmetry in HA. apply map_eq_nil in HA. contradiction. }
    assert (Hfresh : ~ In (id (finalAssembleNode (a :: A))) (List.map id F)).
    { change (id (finalAssembleNode (a :: A))) with finalAssembleId.
      intros Hin. apply in_map_iff in Hin as [n [Hid Hnin]].
      apply in_flat_map in Hnin as [e' [He' Hnin]].
      apply plan_entry_shape in Hnin. rewrite finalAssembleId_eq in Hid.
      apply (Hdoc e' He').
      destruct_shape Hnin; rewrite Hid0 in Hid; id_clash Hid; exact Hid. }
    rewrite addNode_fresh in Hn by exact Hfresh.
    exists (finalAssembleNode (a :: A)). split_and!.
    + rewrite Hn. apply in_or_app. right. left. reflexivity.
    + reflexivity.
    + reflexivity.
    + exact HA.
    + intros e He. rewrite Hes. apply in_or_app. right.
      assert (Hx : In ("assemble:" ++ chap e) (List.map id (a :: A))).
      { rewrite HA. exact (in_map (fun e => "assemble:" ++ chap e) _ _ He). }
      apply in_map_iff in Hx as [x [Hx Hxin]]. apply in_map_iff.
      exists x. split; [rewrite Hx; reflexivity | exact Hxin].
    + intros n Hnin Hdep. rewrite Hn in Hnin. apply in_app_iff in Hnin as [Hnin|[<-|[]]].
      * apply in_flat_map in Hnin as [e' [He' Hnin]].
        apply plan_entry_shape in Hnin. rewrite finalAssembleId_eq in Hdep.
        destruct_shape Hnin; rewrite Hdeps in Hdep;
          try destruct (hE || hT); cbn [In] in Hdep; try contradiction; destruct Hdep as [Hdep|[]]; id_clash Hdep.
      * change (In finalAssembleId (List.map id (a :: A))) in Hdep.
        rewrite HA in Hdep. apply in_map_iff in Hdep as [e' [Heq He']].
        rewrite finalAssembleId_eq in Heq. id_clash Heq. exact (Hdoc e' He' Heq).
    + intros n Hnin Hneq. rewrite Hn in Hnin.
      apply in_app_iff in Hnin as [Hnin|[<-|[]]]; [|contradiction].
      apply in_flat_map in Hnin as [e' [He' Hnin]].
      destruct (decide (type n = assemble)) as [Hty|Hty].
      * exists (finalAssembleNode (a :: A)). split.
        -- rewrite Hn. apply in_or_app. right. left. reflexivity.
        -- change (In (id n) (List.map id (a :: A))). rewrite HA.
           pose proof (plan_entry_shape _ _ _ _ _ Hnin) as Hs.
           destruct_shape Hs; rewrite Hty in Hty0; try discriminate Hty0;
             rewrite Hid; exact (in_map (fun e => "assemble:" ++ chap e) _ _ He').
      * apply (entry_successor ctx hE hT e' n Hnin), Exists_exists in Hty as [m [Hm Hdm]].
        exists m. split; [|exact Hdm].
        rewrite Hn. apply in_or_app. left. apply in_flat_map. exists e'. split; [exact He' | apply list_elem_of_In, Hm].
Qed.

Lemma sample_chapters_distinct :
  NoDup (List.map chap (flattenOutline (outline fixed_ctx))).
Proof. apply (bool_decide_unpack _). vm_compute. reflexivity. Qed.

Lemma sample_no_document_chapter :
  forall e, In e (flattenOutline (outline fixed_ctx)) -> chap e <> "document".
Proof. intros e He. vm_compute in He. destruct He as [<-|[<-|[]]]; vm_compute; discriminate. Qed.

(** C8 witness: the fixed chapter ["1"] of [fixed_ctx]. *)
Lemma buildDag_fixed_content_two_nodes_witness :
  In fixed_entry (flattenOutline (outline fixed_ctx)) /\ fixed fixed_entry = true /\
  List.map (fun n => (id n, type n, dependencies n))
    (List.filter (of_chapter "1") (nodes (buildDag fixed_ctx))) =
    [("materialize:1", materialize_fixed, []); ("assemble:1", assemble, ["materialize:1"])] /\
  In {| from := "materialize:1"; to := "assemble:1"; reason := Some "固定章节装配" |}
     (edges (buildDag fixed_ctx)).
Proof.
  assert (He : In fixed_entry (flattenOutline (outline fixed_ctx))) by (left; reflexivity).
  assert (Hf : fixed fixed_entry = true) by reflexivity.
  destruct (buildDag_fixed_content_two_nodes fixed_ctx fixed_entry sample_chapters_distinct He Hf)
    as [H1 H2].
  exact (conj He (conj Hf (conj H1 H2))).
Defined.

(** C7 counterexample: an empty outline yields no [assemble:document] sink
    (the sink is only added when some chapter assemble node exists). *)
Lemma buildDag_empty_outline_no_sink :
  ~ (exists s, In s (nodes (buildDag empty_ctx)) /\ id s = finalAssembleId).
Proof. vm_compute. intros [s [[] _]]. Qed.

(** C7 witness: the two chapters of [fixed_ctx]. *)
Lemma buildDag_document_sink_witness :
  exists s, In s (nodes (buildDag fixed_ctx)) /\ id s = finalAssembleId /\ type s = assemble /\
    dependencies s = ["assemble:1"; "assemble:2"] /\
    (forall n, In n (nodes (buildDag fixed_ctx)) -> ~ In finalAssembleId (dependencies n)).
Proof.
  destruct (buildDag_document_sink fixed_ctx sample_chapters_distinct sample_no_document_chapter)
    as [_ Hne].
  assert (Hfl : flattenOutline (outline fixed_ctx) <> []) by (vm_compute; discriminate).
  destruct (Hne Hfl) as [s [Hs [Hid [Hty [Hd [_ [Hno _]]]]]]].
  exists s. split_and!; assumption.
Defined.

(** C5 counterexample: an outline whose only entry has neither a chapter
    number nor a title still yields the full chain of task nodes (with
    ["undefined"] in their ids) and the document sink; nothing is skipped. *)
Lemma buildDag_malformed_entry_not_skipped :
  Forall (fun e => chapter_number (node e) = None /\ title (node e) = None)
    (flattenOutline (outline malformed_ctx)) /\
  List.map id (nodes (buildDag malformed_ctx)) =
    ["prepare:undefined"; "write:undefined"; "verify:undefined"; "assemble:undefined";
     "assemble:document"].
Proof. split; [repeat constructor | vm_compute; reflexivity]. Qed.

(** C5 (amended).  [buildDag] is a total function that validates nothing:
    every flattened outline entry, well-formed or not, contributes its task
    ids to the DAG ([materialize]/[assemble] for a fixed-content entry,
    [prepare]/[write]/[verify]/[assemble] otherwise), where a missing
    chapter number is rendered as ["undefined"]. *)
Theorem buildDag_plans_every_entry (ctx : PlannerContext) (e : FlattenedOutlineNode) :
  In e (flattenOutline (outline ctx)) ->
  let ids := List.map id (nodes (buildDag ctx)) in
  (chapter_number (node e) = None -> chap e = "undefined") /\
  In ("assemble:" ++ chap e) ids /\
  (if fixed e then In ("materialize:" ++ chap e) ids
   else In ("prepare:" ++ chap e) ids /\ In ("write:" ++ chap e) ids /\
        In ("verify:" ++ chap e) ids).
Proof.
  intros He. cbv zeta.
  set (hE := existsb AssetRegistry.embed_ready (assetsIndex ctx)).
  set (hT := existsb AssetRegistry.table_ready (assetsIndex ctx)).
  assert (Hin : forall x, In x (List.map id (fst (plan_entry ctx hE hT e))) ->
                          In x (List.map id (nodes (buildDag ctx))))
    by (intros x; apply entry_id_in_dag, He).
  split; [intros Hn; unfold chap; rewrite Hn; reflexivity|].
  destruct (fixed e) eqn:Hf.
  - rewrite (plan_entry_ids_fixed ctx hE hT e Hf) in Hin.
    split; apply Hin; simpl; auto.
  - rewrite (plan_entry_ids_chain ctx hE hT e Hf) in Hin.
    destruct (hE || hT); split_and!; apply Hin; simpl; auto 10.
Qed.

(** C5 witness: the malformed entry of [malformed_ctx]. *)
Lemma buildDag_plans_every_entry_witness :
  In malformed_entry (flattenOutline (outline malformed_ctx)) /\
  In "assemble:undefined" (List.map id (nodes (buildDag malformed_ctx))) /\
  In "write:undefined" (List.map id (nodes (buildDag malformed_ctx))).
Proof.
  assert (He : In malformed_entry (flattenOutline (outline malformed_ctx))) by (left; reflexivity).
  destruct (buildDag_plans_every_entry malformed_ctx malformed_entry He) as [_ [Ha Hr]].
  destruct Hr as [_ [Hw _]].
  exact (conj He (conj Ha Hw)).
Defined.
End PlannerClaims.

(* ------------------------------------------------------------------ *)
(** ** Task state store (src/src/services/supabase-client.ts and
       src/supabase/migrations/20241111_create_task_state.sql) *)

Module TaskState.

Inductive TaskStatus : Type :=
| pending
| running
| completed
| failed
| cancelled
| blocked.

#[export] Instance TaskStatus_eq_dec : EqDecision TaskStatus.
Proof. solve_decision. Defined.

(** A row of [public.task_state]; its primary key [(project_id, node_id)] is
    the key under which the row is stored in the table map.  [result] is the
    JSONB column, [JNull] standing for SQL [NULL]; [updated_at] holds the tick
    of the clock at which the row was last written. *)
Record Row := mkRow {
  type : Planner.TaskType;
  status : TaskStatus;
  dependencies : list string;
  dependents : list string;
  metadata : obj;
  result : jval;
  error : option string;
  retries : nat;
  updated_at : nat
}.

Abbreviation Table := (gmap (string * string) Row).

(** [TaskRecord], the row as the store hands it to the dispatcher. *)
Module TaskRecord.
Record t := mk {
  projectId : string;
  nodeId : string;
  type : Planner.TaskType;
  status : TaskStatus;
  dependencies : list string;
  dependents : list string;
  metadata : obj;
  result : jval;
  error : option string;
  retries : nat;
  updatedAt : nat
}.
End TaskRecord.

(** Row mapping of [getTask], [getTasks]: [result ?? undefined], [error ?? null]. *)
Definition to_record (p n : string) (r : Row) : TaskRecord.t :=
  TaskRecord.mk p n (type r) (status r) (dependencies r) (dependents r) (metadata r)
    (match result r with JNull => JUndef | v => v end) (error r) (retries r) (updated_at r).

(** Row mapping of [listReadyTasks]: [list_ready_tasks] returns no [result]
    and no [error] column. *)
Definition to_ready_record (p n : string) (r : Row) : TaskRecord.t :=
  TaskRecord.mk p n (type r) (status r) (dependencies r) (dependents r) (metadata r)
    JUndef None (retries r) (updated_at r).

(** A job added to a BullMQ queue. *)
Record Job := mkJob {
  job_queue : string;
  job_name : string;
  job_data : jval;
  job_opts : obj
}.

(** The state the dispatcher acts on: the table, the jobs added to the queues
    so far (oldest first), and the clock read by [new Date()] / [NOW()]. *)
Record World := mkWorld {
  table : Table;
  jobs : list Job;
  clock : nat
}.

(** The dispatcher's [async] methods, run one [await] after the other. *)
Definition M (A : Type) : Type := World -> A * World.

Definition ret {A : Type} (a : A) : M A := fun w => (a, w).

Definition bind {A B : Type} (m : M A) (k : A -> M B) : M B :=
  fun w => let (a, w') := m w in k a w'.

Notation "'let!' x ':=' m 'in' k" := (bind m (fun x => k))
  (at level 200, x name, m at level 100, k at level 200).

Fixpoint forM_ {A : Type} (l : list A) (f : A -> M unit) : M unit :=
  match l with
  | [] => ret tt
  | x :: l' => let! _ := f x in forM_ l' f
  end.

Definition stamp (t : nat) (r : Row) : Row :=
  mkRow (type r) (status r) (dependencies r) (dependents r) (metadata r) (result r)
    (error r) (retries r) t.

(** [UPDATE task_state SET ... WHERE ...]; the [BEFORE UPDATE] trigger
    [update_updated_at_column] sets [updated_at = NOW()] on every row written. *)
Definition sql_update (where_ : string * string -> bool) (set : Row -> Row) : M unit :=
  fun w =>
    (tt, mkWorld
           (map_imap (fun k r => Some (if where_ k then stamp (clock w) (set r) else r)) (table w))
           (jobs w) (S (clock w))).

(** [Partial<TaskRecord>] fields read by [updateStatus]; [JUndef] / [None]
    is [undefined]. *)
Record UpdateMeta := mkMeta {
  m_result : jval;
  m_error : option string;
  m_retries : option nat;
  m_metadata : option obj
}.

Definition no_meta : UpdateMeta := mkMeta JUndef None None None.

(** [updateStatus]: the status is always written, each other field only when
    it is [!== undefined]. *)
Definition updateStatus (p n : string) (st : TaskStatus) (meta : UpdateMeta) : M unit :=
  sql_update (fun k => bool_decide (k = (p, n)))
    (fun r => mkRow (type r) st (dependencies r) (dependents r)
       (match m_metadata meta with Some md => md | None => metadata r end)
       (match m_result meta with JUndef => result r | v => v end)
       (match m_error meta with Some e => Some e | None => error r end)
       (match m_retries meta with Some k => k | None => retries r end)
       (updated_at r)).

Definition getTask (p n : string) : M (option TaskRecord.t) :=
  fun w => (option_map (to_record p n) (table w !! (p, n)), w).

(** [getTasks]: the rows of the project whose node id is listed; SQL gives no
    order, the model takes the table's. *)
Definition getTasks (p : string) (ids : list string) : M (list TaskRecord.t) :=
  fun w =>
    match ids with
    | [] => ([], w)
    | _ => (List.map (fun kr => to_record kr.1.1 kr.1.2 kr.2)
              (List.filter (fun kr => bool_decide (kr.1.1 = p) && existsb (String.eqb kr.1.2) ids)
                 (map_to_list (table w))), w)
    end.

(** The [NOT EXISTS] sub-query of [list_ready_tasks]: a dependency id blocks
    readiness when it joins a row of the project whose status is not
    ['completed']; an id that joins no row blocks nothing. *)
Definition dep_blocks (t : Table) (p d : string) : bool :=
  match t !! (p, d) with
  | Some rd => negb (bool_decide (status rd = completed))
  | None => false
  end.

Definition row_ready (t : Table) (p : string) (k : string * string) (r : Row) : bool :=
  bool_decide (k.1 = p) && bool_decide (status r = pending) &&
  negb (existsb (dep_blocks t p) (dependencies r)).

Definition listReadyTasks (p : string) : M (list TaskRecord.t) :=
  fun w =>
    (List.map (fun kr => to_ready_record kr.1.1 kr.1.2 kr.2)
       (List.filter (fun kr => row_ready (table w) p kr.1 kr.2) (map_to_list (table w))), w).

Definition markBlocked (p : string) (ids : list string) : M unit :=
  match ids with
  | [] => ret tt
  | _ => sql_update (fun k => bool_decide (k.1 = p) && existsb (String.eqb k.2) ids)
           (fun r => mkRow (type r) blocked (dependencies r) (dependents r) (metadata r)
                       (result r) (error r) (retries r) (updated_at r))
  end.

(** [QueueNames[key]] = ["report-" + key]; [getQueue(key)] is the queue of that name. *)
Definition QueueNames (key : string) : string := "report-" ++ key.

(** [queue.add(name, data, opts)]. *)
Definition queue_add (queue name : string) (data : jval) (opts : obj) : M unit :=
  fun w => (tt, mkWorld (table w) (List.app (jobs w) [mkJob queue name data opts]) (clock w)).

End TaskState.

(* ------------------------------------------------------------------ *)
(** ** TaskDispatcher (src/unnamed/part_008) *)

Module Dispatcher.
Import TaskState.

(** [TaskNode["type"] | "autofix"] *)
Inductive EventType : Type :=
| Task (t : Planner.TaskType)
| autofix.

Module WorkerResultEvent.
Record t := mk {
  projectId : string;
  nodeId : string;
  type : EventType;
  result : jval;
  error : option string
}.
End WorkerResultEvent.

Inductive ProgressStatus : Type :=
| p_running
| p_failed
| p_retrying.

Module WorkerProgressEvent.
Record t := mk {
  projectId : string;
  nodeId : string;
  type : EventType;
  status : ProgressStatus;
  error : option string
}.
End WorkerProgressEvent.

(** [if (event.error)]: an empty string is falsy. *)
Definition err_truthy (e : option string) : bool := truthy (of_opt e).

Definition defaultEnqueueOptions : obj :=
  omake [("removeOnComplete", JNum 1000); ("removeOnFail", JNum 5000)].

Definition resolveQueue (t : Planner.TaskType) : string :=
  match t with
  | Planner.materialize_fixed => QueueNames "materializer"
  | Planner.prepare => QueueNames "planner"
  | Planner.retrieve => QueueNames "retriever"
  | Planner.write => QueueNames "writer"
  | Planner.verify => QueueNames "verifier"
  | Planner.assemble => QueueNames "assembler"
  end.

(** [dependencies.find((dep) => dep.nodeId === nodeId)?.result] *)
Definition findResult (deps : list TaskRecord.t) (nid : string) : jval :=
  match List.find (fun d => String.eqb (TaskRecord.nodeId d) nid) deps with
  | Some d => TaskRecord.result d
  | None => JUndef
  end.

(** [task.dependencies.find((id) => id.startsWith(pre)) ?? ""] *)
Definition depStartingWith (task : TaskRecord.t) (pre : string) : string :=
  match List.find (String.prefix pre) (TaskRecord.dependencies task) with
  | Some x => x
  | None => ""
  end.

Definition buildJobPayload (p : string) (task : TaskRecord.t) : M jval :=
  let! deps := getTasks p (TaskRecord.dependencies task) in
  let md k := oget (TaskRecord.metadata task) k in
  let nid := TaskRecord.nodeId task in
  ret match TaskRecord.type task with
  | Planner.materialize_fixed =>
      jobj [("projectId", JStr p); ("nodeId", JStr nid);
            ("fixedContent", coalesce (md "fixedContent") (md "fixed_content"));
            ("bindings", md "bindings")]
  | Planner.prepare =>
      jobj [("projectId", JStr p); ("nodeId", JStr nid);
            ("outlineNode", coalesce (md "outlineNode") (md "outline_node"));
            ("projectContext",
              coalesce (md "projectContext") (coalesce (md "project_context") (JObj [])));
            ("assetsAvailability",
              coalesce (md "assetsAvailability")
                (jobj [("embedReady", coalesce (md "embedReady") (JBool false));
                       ("tableReady", coalesce (md "tableReady") (JBool false))]))]
  | Planner.retrieve =>
      let prepareResult :=
        findResult deps (match TaskRecord.dependencies task with x :: _ => x | [] => "" end) in
      jobj [("projectId", JStr p); ("nodeId", JStr nid);
            ("queries", coalesce (jget prepareResult "queries") (coalesce (md "queries") (JArr [])));
            ("limit", coalesce (md "limit") (JNum 5))]
  | Planner.write =>
      let prepareResult := findResult deps (depStartingWith task "prepare") in
      let retrieveResult := findResult deps (depStartingWith task "retrieve") in
      jobj [("projectId", JStr p); ("nodeId", JStr nid);
            ("title", coalesce (md "title")
                        (coalesce (md "outlineTitle") (coalesce (md "label") (JStr nid))));
            ("prompt", coalesce (jget (jget prepareResult "prompts") "user_prompt_text")
                         (coalesce (md "prompt") (JStr "")));
            ("contextPack", coalesce (jget retrieveResult "contextPack") (JArr []));
            ("metrics", md "metrics"); ("writingJournal", md "writingJournal")]
  | Planner.verify =>
      let writeResult := findResult deps (depStartingWith task "write") in
      jobj [("projectId", JStr p); ("nodeId", JStr nid);
            ("draft", coalesce (jget writeResult "draft") (md "draft"));
            ("metrics", md "metrics"); ("evidenceMap", md "evidenceMap")]
  | Planner.assemble =>
      let materialized := findResult deps (depStartingWith task "materialize") in
      let verified := findResult deps (depStartingWith task "verify") in
      jobj [("projectId", JStr p); ("nodeId", JStr nid);
            ("fixedBlocks", if truthy materialized then JArr [jget materialized "renderedBlock"]
                            else md "fixedBlocks");
            ("draft", coalesce (jget verified "draft") (md "draft"));
            ("children", JArr (List.map JStr (TaskRecord.dependents task)))]
  end.

Section Handlers.

(** [this.options.enqueue ?? {}] of the dispatcher instance. *)
Variable enqueueOptions : obj.

(** [{ ...defaultEnqueueOptions, ...(this.options.enqueue ?? {}) }] *)
Definition jobOptions : obj := enqueueOptions ∪ defaultEnqueueOptions.

Definition enqueueTask (p : string) (task : TaskRecord.t) : M unit :=
  let queue := resolveQueue (TaskRecord.type task) in
  let! payload := buildJobPayload p task in
  let! _ := queue_add queue (p ++ ":" ++ TaskRecord.nodeId task) payload jobOptions in
  updateStatus p (TaskRecord.nodeId task) running no_meta.

Definition enqueueReadyTasks (p : string) : M unit :=
  let! readyTasks := listReadyTasks p in
  forM_ readyTasks (enqueueTask p).

Definition blockDependentsOnFailure (p n : string) : M unit :=
  let! record := getTask p n in
  match record with
  | None => ret tt
  | Some r =>
      match TaskRecord.dependents r with
      | [] => ret tt
      | ds => markBlocked p ds
      end
  end.

Definition handleAutofixFailure (ev : WorkerResultEvent.t) : M unit :=
  let p := WorkerResultEvent.projectId ev in
  let n := WorkerResultEvent.nodeId ev in
  let! _ := updateStatus p n failed
              (mkMeta JUndef
                 (Some (match WorkerResultEvent.error ev with
                        | Some e => e
                        | None => "AutoFix failed"
                        end)) None None) in
  blockDependentsOnFailure p n.

Definition handleVerifyResult (ev : WorkerResultEvent.t) : M unit :=
  let p := WorkerResultEvent.projectId ev in
  let n := WorkerResultEvent.nodeId ev in
  let verifyResult := WorkerResultEvent.result ev in
  if negb (truthy verifyResult) then
    let! _ := updateStatus p n completed no_meta in
    enqueueReadyTasks p
  else if is_str (jget verifyResult "status") "accept" then
    let! _ := updateStatus p n completed (mkMeta (jget verifyResult "draft") None None None) in
    enqueueReadyTasks p
  else if is_str (jget verifyResult "status") "hard_fail" then
    let! _ := updateStatus p n failed
                (mkMeta (jget verifyResult "draft") (Some "Verifier hard fail") None None) in
    blockDependentsOnFailure p n
  else if is_str (jget verifyResult "status") "soft_fail" then
    let! task := getTask p n in
    match task with
    | None => ret tt
    | Some task =>
        let md := oset "violations" (jget verifyResult "violations")
                    (oset "pendingPatches" (jget verifyResult "patches")
                       (oset "draft" (jget verifyResult "draft") (TaskRecord.metadata task))) in
        let! _ := updateStatus p n blocked (mkMeta (jget verifyResult "draft") None None (Some md)) in
        queue_add (QueueNames "autofixer") (p ++ ":" ++ n ++ ":autofix")
          (jobj [("projectId", JStr p); ("nodeId", JStr n);
                 ("draft", jget verifyResult "draft");
                 ("patches", coalesce (jget verifyResult "patches") (JArr []))])
          defaultEnqueueOptions
    end
  else ret tt.

Definition handleAutofixSuccess (ev : WorkerResultEvent.t) : M unit :=
  let p := WorkerResultEvent.projectId ev in
  let n := WorkerResultEvent.nodeId ev in
  let! task := getTask p n in
  match task with
  | None => ret tt
  | Some task =>
      let md := delete "violations" (delete "pendingPatches"
                  (oset "draft" (coalesce (jget (WorkerResultEvent.result ev) "draft")
                                          (oget (TaskRecord.metadata task) "draft"))
                     (TaskRecord.metadata task))) in
      let! _ := updateStatus p n pending
                  (mkMeta (jget (WorkerResultEvent.result ev) "draft") None None (Some md)) in
      let! refreshed := getTask p n in
      match refreshed with
      | Some refreshed => enqueueTask p refreshed
      | None => ret tt
      end
  end.

Definition handleWorkerResult (ev : WorkerResultEvent.t) : M unit :=
  let p := WorkerResultEvent.projectId ev in
  let n := WorkerResultEvent.nodeId ev in
  match WorkerResultEvent.type ev with
  | autofix =>
      if err_truthy (WorkerResultEvent.error ev) then handleAutofixFailure ev
      else handleAutofixSuccess ev
  | Task t =>
      if err_truthy (WorkerResultEvent.error ev) then
        let! _ := updateStatus p n failed (mkMeta JUndef (WorkerResultEvent.error ev) None None) in
        blockDependentsOnFailure p n
      else if match t with Planner.verify => true | _ => false end &&
              truthy (jget (WorkerResultEvent.result ev) "status") then
        handleVerifyResult ev
      else
        let! _ := updateStatus p n completed (mkMeta (WorkerResultEvent.result ev) None None None) in
        enqueueReadyTasks p
  end.

Definition handleWorkerProgress (ev : WorkerProgressEvent.t) : M unit :=
  let p := WorkerProgressEvent.projectId ev in
  let n := WorkerProgressEvent.nodeId ev in
  match WorkerProgressEvent.type ev with
  | autofix =>
      match WorkerProgressEvent.status ev with
      | p_failed =>
          handleAutofixFailure
            (WorkerResultEvent.mk p n autofix JUndef (WorkerProgressEvent.error ev))
      | _ => ret tt
      end
  | Task _ =>
      match WorkerProgressEvent.status ev with
      | p_running => updateStatus p n running no_meta
      | p_failed =>
          let! _ := updateStatus p n failed (mkMeta JUndef (WorkerProgressEvent.error ev) None None) in
          blockDependentsOnFailure p n
      | p_retrying => ret tt
      end
  end.

End Handlers.

End Dispatcher.

(* ------------------------------------------------------------------ *)
(** ** Facts about the store operations *)

Module StoreFacts.
Import TaskState.

(** The row written by [updateStatus] (before the trigger's stamp). *)
Definition apply_update (st : TaskStatus) (meta : UpdateMeta) (r : Row) : Row :=
  mkRow (type r) st (dependencies r) (dependents r)
    (match m_metadata meta with Some md => md | None => metadata r end)
    (match m_result meta with JUndef => result r | v => v end)
    (match m_error meta with Some e => Some e | None => error r end)
    (match m_retries meta with Some k => k | None => retries r end)
    (updated_at r).

Definition set_blocked (r : Row) : Row :=
  mkRow (type r) blocked (dependencies r) (dependents r) (metadata r)
    (result r) (error r) (retries r) (updated_at r).

Lemma sql_update_lookup wh set w k :
  table (snd (sql_update wh set w)) !! k =
  (fun r => if wh k then stamp (clock w) (set r) else r) <$> table w !! k.
Proof.
  unfold sql_update. cbn [table snd]. rewrite map_lookup_imap.
  destruct (table w !! k); reflexivity.
Qed.

Lemma updateStatus_lookup p n st meta w k :
  table (snd (updateStatus p n st meta w)) !! k =
  (fun r => if bool_decide (k = (p, n)) then stamp (clock w) (apply_update st meta r) else r)
    <$> table w !! k.
Proof. apply sql_update_lookup. Qed.

Lemma updateStatus_jobs p n st meta w :
  jobs (snd (updateStatus p n st meta w)) = jobs w.
Proof. reflexivity. Qed.

Lemma updateStatus_at p n st meta w r :
  table w !! (p, n) = Some r ->
  table (snd (updateStatus p n st meta w)) !! (p, n) = Some (stamp (clock w) (apply_update st meta r)).
Proof. intros H. rewrite updateStatus_lookup, H. simpl. rewrite bool_decide_true; reflexivity. Qed.

Lemma updateStatus_other p n st meta w k :
  k <> (p, n) -> table (snd (updateStatus p n st meta w)) !! k = table w !! k.
Proof.
  intros Hk. rewrite updateStatus_lookup. rewrite bool_decide_false by exact Hk.
  destruct (table w !! k); reflexivity.
Qed.

Lemma markBlocked_lookup p ids w k :
  table (snd (markBlocked p ids w)) !! k =
  (fun r => if bool_decide (k.1 = p) && existsb (String.eqb k.2) ids
            then stamp (clock w) (set_blocked r) else r) <$> table w !! k.
Proof.
  destruct ids as [|i ids].
  - simpl. rewrite andb_false_r. destruct (table w !! k); reflexivity.
  - apply sql_update_lookup.
Qed.

Lemma markBlocked_jobs p ids w : jobs (snd (markBlocked p ids w)) = jobs w.
Proof. destruct ids; reflexivity. Qed.

Lemma getTask_world p n w : snd (getTask p n w) = w.
Proof. reflexivity. Qed.

Lemma getTasks_world p ids w : snd (getTasks p ids w) = w.
Proof. destruct ids; reflexivity. Qed.

Lemma listReadyTasks_world p w : snd (listReadyTasks p w) = w.
Proof. reflexivity. Qed.

(** [dep_blocks] reads only the status of the dependency's row. *)
Lemma dep_blocks_status t p d :
  dep_blocks t p d =
  match status <$> t !! (p, d) with
  | Some s => negb (bool_decide (s = completed))
  | None => false
  end.
Proof. unfold dep_blocks. destruct (t !! (p, d)); reflexivity. Qed.

Lemma row_ready_ext t1 t2 p k r1 r2 :
  (forall d, dep_blocks t1 p d = dep_blocks t2 p d) ->
  status r1 = status r2 -> dependencies r1 = dependencies r2 ->
  row_ready t1 p k r1 = row_ready t2 p k r2.
Proof.
  intros Ht Hs Hd. unfold row_ready. rewrite Hs, Hd.
  assert (E : forall ds, existsb (dep_blocks t1 p) ds = existsb (dep_blocks t2 p) ds).
  { intros ds. induction ds as [|d ds IH]; simpl; [reflexivity|]. rewrite Ht, IH. reflexivity. }
  rewrite E. reflexivity.
Qed.

Lemma dep_blocks_ext t1 t2 p :
  (forall k, status <$> t1 !! k = status <$> t2 !! k) ->
  forall d, dep_blocks t1 p d = dep_blocks t2 p d.
Proof. intros Ht d. rewrite !dep_blocks_status, Ht. reflexivity. Qed.

(** Membership in the result of [listReadyTasks]. *)
Lemma listReadyTasks_In p w tr :
  In tr (fst (listReadyTasks p w)) <->
  exists n r, table w !! (p, n) = Some r /\ row_ready (table w) p (p, n) r = true /\
              tr = to_ready_record p n r.
Proof.
  unfold listReadyTasks. simpl. rewrite in_map_iff. split.
  - intros [[[p' n] r] [Heq Hin]]. apply filter_In in Hin as [Hin Hr].
    apply list_elem_of_In, elem_of_map_to_list in Hin. simpl in *.
    assert (p' = p) as ->.
    { unfold row_ready in Hr. simpl in Hr.
      apply andb_true_iff in Hr as [Hr _]. apply andb_true_iff in Hr as [Hr _].
      exact (bool_decide_eq_true_1 _ Hr). }
    exists n, r. auto.
  - intros [n [r [Hl [Hr ->]]]]. exists ((p, n), r). split; [reflexivity|].
    apply filter_In. split; [|exact Hr].
    apply list_elem_of_In, elem_of_map_to_list, Hl.
Qed.

Lemma listReadyTasks_nil p w :
  (forall n r, table w !! (p, n) = Some r -> row_ready (table w) p (p, n) r = false) ->
  fst (listReadyTasks p w) = [].
Proof.
  intros H. destruct (fst (listReadyTasks p w)) as [|tr l] eqn:E; [reflexivity|].
  assert (Hin : In tr (fst (listReadyTasks p w))) by (rewrite E; left; reflexivity).
  apply listReadyTasks_In in Hin as [n [r [Hl [Hr _]]]].
  rewrite (H n r Hl) in Hr. discriminate.
Qed.

Lemma row_ready_pending t p k r :
  row_ready t p k r = true -> status r = pending.
Proof.
  unfold row_ready. intros H.
  apply andb_true_iff in H as [H _]. apply andb_true_iff in H as [_ H].
  exact (bool_decide_eq_true_1 _ H).
Qed.

End StoreFacts.

(** Sample store contents: one written chapter half-way through. *)
Module DispatcherSamples.
Import TaskState Dispatcher.

Definition row (t : Planner.TaskType) (st : TaskStatus) (deps dnts : list string) : Row :=
  mkRow t st deps dnts ∅ JNull None 0 0.

(** [prepare:1] done, [write:1] running, [verify:1] and [assemble:1] waiting. *)
Definition chain_world : World :=
  mkWorld
    (list_to_map
       [(("p", "prepare:1"), row Planner.prepare completed [] ["write:1"]);
        (("p", "write:1"), row Planner.write running ["prepare:1"] ["verify:1"]);
        (("p", "verify:1"), row Planner.verify pending ["write:1"] ["assemble:1"]);
        (("p", "assemble:1"), row Planner.assemble pending ["verify:1"] [])])
    [] 1.

Definition verify_event (res : jval) : WorkerResultEvent.t :=
  WorkerResultEvent.mk "p" "verify:1" (Task Planner.verify) res None.

Definition write_done : WorkerResultEvent.t :=
  WorkerResultEvent.mk "p" "write:1" (Task Planner.write) (JObj [("draft", JStr "text")]) None.

Definition write_failed : WorkerProgressEvent.t :=
  WorkerProgressEvent.mk "p" "write:1" (Task Planner.write) p_failed (Some "timeout").

Definition autofix_done : WorkerResultEvent.t :=
  WorkerResultEvent.mk "p" "verify:1" autofix (JObj [("draft", JStr "fixed")]) None.

Definition empty_world : World := mkWorld ∅ [] 0.


End DispatcherSamples.

(* ------------------------------------------------------------------ *)
(** ** Claims about the store and the dispatcher *)

Module DispatcherClaims.
Import TaskState Dispatcher StoreFacts DispatcherSamples.

Lemma truthy_of_jget v k : truthy (jget v k) = true -> truthy v = true.
Proof. destruct v; simpl; intros H; try discriminate; reflexivity. Qed.

(** C10.  A verify result without error whose [status] is truthy but none of
    ["accept"], ["hard_fail"], ["soft_fail"] falls through every branch of
    [handleVerifyResult]: the world (table, jobs, clock) is left exactly as
    it was, so the verify task keeps its status. *)
Theorem handleWorkerResult_unknown_verify_status (opts : obj) (ev : WorkerResultEvent.t) (w : World) :
  WorkerResultEvent.type ev = Task Planner.verify ->
  err_truthy (WorkerResultEvent.error ev) = false ->
  truthy (jget (WorkerResultEvent.result ev) "status") = true ->
  is_str (jget (WorkerResultEvent.result ev) "status") "accept" = false ->
  is_str (jget (WorkerResultEvent.result ev) "status") "hard_fail" = false ->
  is_str (jget (WorkerResultEvent.result ev) "status") "soft_fail" = false ->
  handleWorkerResult opts ev w = (tt, w).
Proof.
  intros Ht He Hs Ha Hh Hf.
  unfold handleWorkerResult, handleVerifyResult. rewrite Ht, He. cbv beta iota zeta delta [andb negb].
  rewrite Hs, (truthy_of_jget _ _ Hs). cbv beta iota delta [negb].
  rewrite Ha, Hh, Hf. reflexivity.
Qed.

(** C10 witness: a ["retry"] verdict on [verify:1]. *)
Lemma handleWorkerResult_unknown_verify_status_witness :
  handleWorkerResult ∅ (verify_event (JObj [("status", JStr "retry")])) chain_world =
  (tt, chain_world).
Proof.
  apply handleWorkerResult_unknown_verify_status; reflexivity.
Defined.




Lemma bind_eq {A B : Type} (m : M A) (k : A -> M B) (w : World) :
  bind m k w = k (fst (m w)) (snd (m w)).
Proof. unfold bind. destruct (m w); reflexivity. Qed.

Lemma is_str_truthy v s : is_str v s = true -> s <> "" -> truthy v = true.
Proof.
  destruct v; simpl; try discriminate. intros H Hs.
  apply String.eqb_eq in H. subst. apply negb_true_iff, String.eqb_neq, Hs.
Qed.

Lemma is_str_other v s s' : is_str v s = true -> s <> s' -> is_str v s' = false.
Proof.
  destruct v; simpl; try discriminate. intros H Hne.
  apply String.eqb_eq in H. subst. apply String.eqb_neq, Hne.
Qed.

(** The four ways the dispatcher marks a node [failed]. *)
Inductive marks_failed (opts : obj) : string -> string -> M unit -> Prop :=
| mf_progress (ev : WorkerProgressEvent.t) (t : Planner.TaskType) :
    WorkerProgressEvent.type ev = Task t ->
    WorkerProgressEvent.status ev = p_failed ->
    marks_failed opts (WorkerProgressEvent.projectId ev) (WorkerProgressEvent.nodeId ev)
      (handleWorkerProgress ev)
| mf_progress_autofix (ev : WorkerProgressEvent.t) :
    WorkerProgressEvent.type ev = autofix ->
    WorkerProgressEvent.status ev = p_failed ->
    marks_failed opts (WorkerProgressEvent.projectId ev) (WorkerProgressEvent.nodeId ev)
      (handleWorkerProgress ev)
| mf_result_error (ev : WorkerResultEvent.t) (t : Planner.TaskType) :
    WorkerResultEvent.type ev = Task t ->
    err_truthy (WorkerResultEvent.error ev) = true ->
    marks_failed opts (WorkerResultEvent.projectId ev) (WorkerResultEvent.nodeId ev)
      (handleWorkerResult opts ev)
| mf_hard_fail (ev : WorkerResultEvent.t) :
    WorkerResultEvent.type ev = Task Planner.verify ->
    err_truthy (WorkerResultEvent.error ev) = false ->
    is_str (jget (WorkerResultEvent.result ev) "status") "hard_fail" = true ->
    marks_failed opts (WorkerResultEvent.projectId ev) (WorkerResultEvent.nodeId ev)
      (handleWorkerResult opts ev)
| mf_autofix_error (ev : WorkerResultEvent.t) :
    WorkerResultEvent.type ev = autofix ->
    err_truthy (WorkerResultEvent.error ev) = true ->
    marks_failed opts (WorkerResultEvent.projectId ev) (WorkerResultEvent.nodeId ev)
      (handleWorkerResult opts ev).

(** Each of them is [updateStatus(.., "failed", ..)] followed by
    [blockDependentsOnFailure]. *)
Lemma marks_failed_shape opts p n act :
  marks_failed opts p n act ->
  exists meta, forall w,
    act w = (let! _ := updateStatus p n failed meta in blockDependentsOnFailure p n) w.
Proof.
  intros H. destruct H as [ev t Ht Hs|ev Ht Hs|ev t Ht He|ev Ht He Hs|ev Ht He].
  - eexists. intros w. unfold handleWorkerProgress. rewrite Ht, Hs. reflexivity.
  - eexists. intros w. unfold handleWorkerProgress, handleAutofixFailure. rewrite Ht, Hs. reflexivity.
  - eexists. intros w. unfold handleWorkerResult. rewrite Ht, He. reflexivity.
  - eexists. intros w. unfold handleWorkerResult, handleVerifyResult. rewrite Ht, He.
    assert (Hst : truthy (jget (WorkerResultEvent.result ev) "status") = true)
      by (apply (is_str_truthy _ "hard_fail"); [exact Hs | discriminate]).
    cbv beta iota zeta delta [andb negb]. rewrite Hst, (truthy_of_jget _ _ Hst).
    cbv beta iota delta [negb].
    rewrite (is_str_other _ _ "accept" Hs) by discriminate. rewrite Hs. reflexivity.
  - eexists. intros w. unfold handleWorkerResult, handleAutofixFailure. rewrite Ht, He. reflexivity.
Qed.

Lemma fail_block_lookup p n meta w r k :
  table w !! (p, n) = Some r ->
  table (snd ((let! _ := updateStatus p n failed meta in blockDependentsOnFailure p n) w)) !! k =
  (fun r0 => if bool_decide (k.1 = p) && existsb (String.eqb k.2) (dependents r)
             then stamp (S (clock w)) (set_blocked r0) else r0)
    <$> ((fun r0 => if bool_decide (k = (p, n)) then stamp (clock w) (apply_update failed meta r0)
                    else r0) <$> table w !! k).
Proof.
  intros Hr. rewrite bind_eq. unfold blockDependentsOnFailure. rewrite bind_eq, getTask_world.
  unfold getTask at 1. cbn [fst snd]. rewrite (updateStatus_at _ _ _ _ _ _ Hr). cbn [option_map].
  change (TaskRecord.dependents _) with (dependents r).
  destruct (dependents r) as [|d ds] eqn:Hd.
  - cbn [snd ret]. rewrite updateStatus_lookup.
    destruct (table w !! k); simpl; [rewrite andb_false_r|]; reflexivity.
  - rewrite markBlocked_lookup, updateStatus_lookup. reflexivity.
Qed.

Lemma fail_block_jobs p n meta w :
  jobs (snd ((let! _ := updateStatus p n failed meta in blockDependentsOnFailure p n) w)) = jobs w.
Proof.
  rewrite bind_eq. unfold blockDependentsOnFailure. rewrite bind_eq, getTask_world.
  destruct (fst (getTask _ _ _)) as [tr|]; [|reflexivity].
  destruct (TaskRecord.dependents tr); [reflexivity|]. rewrite markBlocked_jobs. reflexivity.
Qed.

(** C1 counterexample: [write:1 -> verify:1 -> assemble:1]; a failed
    progress event for [write:1] blocks [verify:1] but leaves the transitive
    dependent [assemble:1] [pending]. *)
Lemma failure_does_not_block_transitively :
  dependents <$> table chain_world !! ("p", "write:1") = Some ["verify:1"] /\
  dependents <$> table chain_world !! ("p", "verify:1") = Some ["assemble:1"] /\
  status <$> table (snd (handleWorkerProgress write_failed chain_world)) !! ("p", "verify:1")
    = Some blocked /\
  status <$> table (snd (handleWorkerProgress write_failed chain_world)) !! ("p", "assemble:1")
    = Some pending.
Proof. split_and!; vm_compute; reflexivity. Qed.

(** C1 (amended).  Whichever of the four routes marks node [n] of project
    [p] failed, the effect on an existing row [r] is: the node itself ends
    [failed] (or [blocked] if it lists itself among its dependents), each
    DIRECT dependent recorded in [r.dependents] that has a row ends
    [blocked], every other row is left exactly as it was (so dependents of
    dependents are not blocked), no job is enqueued, and neither the node
    nor its direct dependents is returned by [listReadyTasks] afterwards. *)
Theorem failure_blocks_direct_dependents (opts : obj) (p n : string) (act : M unit)
    (w : World) (r : Row) :
  marks_failed opts p n act ->
  table w !! (p, n) = Some r ->
  let w' := snd (act w) in
  jobs w' = jobs w /\
  (forall m rm, In m (dependents r) -> table w !! (p, m) = Some rm ->
      status <$> table w' !! (p, m) = Some blocked) /\
  (~ In n (dependents r) -> status <$> table w' !! (p, n) = Some failed) /\
  (forall k, k <> (p, n) -> ~ (k.1 = p /\ In k.2 (dependents r)) ->
      table w' !! k = table w !! k) /\
  (forall m, m = n \/ In m (dependents r) ->
      ~ In m (List.map TaskRecord.nodeId (fst (listReadyTasks p w')))).
Proof.
  intros Hm Hr. destruct (marks_failed_shape _ _ _ _ Hm) as [meta Hact]. cbv zeta. rewrite Hact.
  pose proof (fun k => fail_block_lookup p n meta w r k Hr) as HL.
  assert (Hblk : forall m rm, In m (dependents r) -> table w !! (p, m) = Some rm ->
     status <$> table (snd ((let! _ := updateStatus p n failed meta in
                              blockDependentsOnFailure p n) w)) !! (p, m) = Some blocked).
  { intros m rm Hin Hrm. rewrite HL, Hrm. cbn [fst snd fmap option_fmap option_map].
    rewrite bool_decide_true by reflexivity.
    assert (E : existsb (String.eqb m) (dependents r) = true).
    { apply existsb_exists. exists m. split; [exact Hin | apply String.eqb_refl]. }
    rewrite E. reflexivity. }
  assert (Hfail : ~ In n (dependents r) ->
     status <$> table (snd ((let! _ := updateStatus p n failed meta in
                              blockDependentsOnFailure p n) w)) !! (p, n) = Some failed).
  { intros Hn. rewrite HL, Hr. cbn [fst snd fmap option_fmap option_map].
    rewrite (bool_decide_true ((p, n) = (p, n))) by reflexivity.
    destruct (existsb (String.eqb n) (dependents r)) eqn:E.
    - apply existsb_exists in E as [x [Hx Hxe]]. apply String.eqb_eq in Hxe. subst. contradiction.
    - rewrite andb_false_r. reflexivity. }
  split_and!.
  - apply fail_block_jobs.
  - exact Hblk.
  - exact Hfail.
  - intros [kp kn] Hk Hnk. rewrite HL. rewrite (bool_decide_false ((kp, kn) = (p, n))) by exact Hk.
    cbn [fst snd].
    destruct (decide (kp = p)) as [->|Hp].
    + rewrite (bool_decide_true (p = p)) by reflexivity.
      destruct (existsb (String.eqb kn) (dependents r)) eqn:E.
      * apply existsb_exists in E as [x [Hx Hxe]]. apply String.eqb_eq in Hxe. subst.
        exfalso. apply Hnk. split; [reflexivity | exact Hx].
      * destruct (table w !! (p, kn)); reflexivity.
    + rewrite (bool_decide_false (kp = p)) by exact Hp. destruct (table w !! (kp, kn)); reflexivity.
  - intros m Hmn Hin. apply in_map_iff in Hin as [tr [Htr Hin]].
    apply listReadyTasks_In in Hin as [n' [r' [Hl [Hready ->]]]].
    cbn in Htr. subst n'. apply row_ready_pending in Hready.
    assert (Hp : status <$> table (snd ((let! _ := updateStatus p n failed meta in
                   blockDependentsOnFailure p n) w)) !! (p, m) = Some pending)
      by (rewrite Hl; cbn; rewrite Hready; reflexivity).
    destruct (in_dec string_dec m (dependents r)) as [Hin|Hnin].
    + destruct (table w !! (p, m)) as [rm|] eqn:E.
      * rewrite (Hblk m rm Hin E) in Hp. discriminate.
      * rewrite HL, E in Hl. discriminate.
    + destruct Hmn as [->|Hin]; [|contradiction].
      rewrite (Hfail Hnin) in Hp. discriminate.
Qed.

(** C1 witness: the failed progress event for [write:1] of [chain_world]. *)
Lemma failure_blocks_direct_dependents_witness :
  status <$> table (snd (handleWorkerProgress write_failed chain_world)) !! ("p", "verify:1")
    = Some blocked.
Proof.
  assert (Hr : table chain_world !! ("p", "write:1") =
               Some (row Planner.write running ["prepare:1"] ["verify:1"]))
    by (vm_compute; reflexivity).
  assert (Hv : table chain_world !! ("p", "verify:1") =
               Some (row Planner.verify pending ["write:1"] ["assemble:1"]))
    by (vm_compute; reflexivity).
  pose proof (failure_blocks_direct_dependents ∅ "p" "write:1" (handleWorkerProgress write_failed)
                chain_world _ (mf_progress ∅ write_failed Planner.write eq_refl eq_refl) Hr) as H.
  cbv zeta in H. destruct H as [_ [Hb _]].
  exact (Hb "verify:1" _ (or_introl eq_refl) Hv).
Defined.

Lemma buildJobPayload_world p task w : snd (buildJobPayload p task w) = w.
Proof. unfold buildJobPayload. rewrite bind_eq, getTasks_world. reflexivity. Qed.

(** [enqueueTask]: one job on the queue of the task's type, then the row is
    set [running]. *)
Lemma enqueueTask_effect opts p task w :
  jobs (snd (enqueueTask opts p task w)) =
    List.app (jobs w) [mkJob (resolveQueue (TaskRecord.type task)) (p ++ ":" ++ TaskRecord.nodeId task)
                         (fst (buildJobPayload p task w)) (jobOptions opts)] /\
  forall k, table (snd (enqueueTask opts p task w)) !! k =
    (fun r => if bool_decide (k = (p, TaskRecord.nodeId task))
              then stamp (clock w) (apply_update running no_meta r) else r) <$> table w !! k.
Proof.
  unfold enqueueTask. rewrite !bind_eq, buildJobPayload_world. split.
  - rewrite updateStatus_jobs. reflexivity.
  - intros k. rewrite updateStatus_lookup. reflexivity.
Qed.

(** C3 counterexample: a [soft_fail] verdict for a node that has no row
    enqueues no autofix job ([if (!task) return;]). *)
Lemma soft_fail_without_task_enqueues_nothing :
  jobs (snd (handleWorkerResult ∅
          (verify_event (JObj [("status", JStr "soft_fail"); ("draft", JStr "d")])) empty_world))
  = [].
Proof. vm_compute. reflexivity. Qed.

(** C3 (amended).  For a verify result without error whose status is
    ["soft_fail"]: when the node has no row, nothing changes and no job is
    added ([if (!task) return;]); when it has a row [r], the row becomes
    [blocked] (not [failed]), its metadata is [r.metadata] with [draft],
    [pendingPatches] (the result's [patches]) and [violations] set, its
    result is the draft when the result carries one ([updateStatus] skips an
    undefined [result], so the stored one stays otherwise), no other row
    changes, and exactly one job is added, on the autofixer queue, named
    [<p>:<n>:autofix], carrying the project, the node, the draft and the
    patches (or [[]]). *)
Theorem soft_fail_blocks_and_enqueues_autofix (opts : obj) (ev : WorkerResultEvent.t)
    (w : World) :
  WorkerResultEvent.type ev = Task Planner.verify ->
  err_truthy (WorkerResultEvent.error ev) = false ->
  is_str (jget (WorkerResultEvent.result ev) "status") "soft_fail" = true ->
  let p := WorkerResultEvent.projectId ev in
  let n := WorkerResultEvent.nodeId ev in
  let vr := WorkerResultEvent.result ev in
  let w' := snd (handleWorkerResult opts ev w) in
  match table w !! (p, n) with
  | None => handleWorkerResult opts ev w = (tt, w)
  | Some r =>
    (exists r', table w' !! (p, n) = Some r' /\ status r' = blocked /\
       metadata r' = oset "violations" (jget vr "violations")
                       (oset "pendingPatches" (jget vr "patches")
                          (oset "draft" (jget vr "draft") (metadata r))) /\
       result r' = match jget vr "draft" with JUndef => result r | v => v end) /\
    (forall k, k <> (p, n) -> table w' !! k = table w !! k) /\
    jobs w' = List.app (jobs w)
      [mkJob (QueueNames "autofixer") (p ++ ":" ++ n ++ ":autofix")
         (jobj [("projectId", JStr p); ("nodeId", JStr n); ("draft", jget vr "draft");
                ("patches", coalesce (jget vr "patches") (JArr []))])
         defaultEnqueueOptions]
  end.
Proof.
  intros Ht He Hs. cbv zeta.
  assert (Hst : truthy (jget (WorkerResultEvent.result ev) "status") = true)
    by (apply (is_str_truthy _ "soft_fail"); [exact Hs | discriminate]).
  destruct (table w !! (WorkerResultEvent.projectId ev, WorkerResultEvent.nodeId ev))
    as [r|] eqn:Hr;
    unfold handleWorkerResult, handleVerifyResult; rewrite Ht, He;
    cbv beta iota zeta delta [andb negb]; rewrite Hst, (truthy_of_jget _ _ Hst);
    cbv beta iota delta [negb];
    rewrite (is_str_other _ _ "accept" Hs), (is_str_other _ _ "hard_fail" Hs), Hs
      by discriminate;
    rewrite bind_eq, getTask_world; unfold getTask; cbn [fst]; rewrite Hr; cbn [option_map].
  - rewrite bind_eq. unfold queue_add. cbn [snd table jobs].
    split_and!.
    + eexists. split; [apply updateStatus_at, Hr|]. split_and!; reflexivity.
    + intros k Hk. apply updateStatus_other, Hk.
    + rewrite updateStatus_jobs. reflexivity.
  - reflexivity.
Qed.

(** C3 witness: a [soft_fail] verdict on [verify:1] of [chain_world]. *)
Lemma soft_fail_blocks_and_enqueues_autofix_witness :
  status <$> table (snd (handleWorkerResult ∅
     (verify_event (JObj [("status", JStr "soft_fail"); ("draft", JStr "d")])) chain_world))
     !! ("p", "verify:1") = Some blocked.
Proof.
  assert (Hv : table chain_world !!
                 (WorkerResultEvent.projectId
                    (verify_event (JObj [("status", JStr "soft_fail"); ("draft", JStr "d")])),
                  WorkerResultEvent.nodeId
                    (verify_event (JObj [("status", JStr "soft_fail"); ("draft", JStr "d")]))) =
               Some (row Planner.verify pending ["write:1"] ["assemble:1"]))
    by (vm_compute; reflexivity).
  pose proof (soft_fail_blocks_and_enqueues_autofix ∅
     (verify_event (JObj [("status", JStr "soft_fail"); ("draft", JStr "d")])) chain_world
     eq_refl eq_refl eq_refl) as H.
  cbv zeta in H. rewrite Hv in H. destruct H as [[r' [H1 [H2 _]]] _].
  change (status <$> table (snd (handleWorkerResult ∅
     (verify_event (JObj [("status", JStr "soft_fail"); ("draft", JStr "d")])) chain_world))
     !! (WorkerResultEvent.projectId (verify_event (JObj [("status", JStr "soft_fail"); ("draft", JStr "d")])),
         WorkerResultEvent.nodeId (verify_event (JObj [("status", JStr "soft_fail"); ("draft", JStr "d")])))
     = Some blocked).
  rewrite H1. cbn [fmap option_fmap option_map]. rewrite H2. reflexivity.
Defined.

(** C4.  For an autofix result without error on a node that has a verify
    row [r]: [handleAutofixSuccess] first writes the row back to [pending]
    (never [completed]) with the draft merged into the metadata and
    [pendingPatches] / [violations] removed, and with the draft as result
    (when defined), touching no other row and adding no job; it then runs
    [enqueueTask] on the re-read row, so the run ends with that row
    [running] with the same metadata and exactly one new job, named
    [<p>:<n>], on the verifier queue. *)
Theorem autofix_success_resets_and_reenqueues (opts : obj) (ev : WorkerResultEvent.t)
    (w : World) (r : Row) :
  WorkerResultEvent.type ev = autofix ->
  err_truthy (WorkerResultEvent.error ev) = false ->
  table w !! (WorkerResultEvent.projectId ev, WorkerResultEvent.nodeId ev) = Some r ->
  type r = Planner.verify ->
  let p := WorkerResultEvent.projectId ev in
  let n := WorkerResultEvent.nodeId ev in
  let res := WorkerResultEvent.result ev in
  let md := delete "violations" (delete "pendingPatches"
              (oset "draft" (coalesce (jget res "draft") (oget (metadata r) "draft"))
                 (metadata r))) in
  exists r_mid w_mid,
    table w_mid !! (p, n) = Some r_mid /\ status r_mid = pending /\ metadata r_mid = md /\
    result r_mid = match jget res "draft" with JUndef => result r | v => v end /\
    jobs w_mid = jobs w /\
    (forall k, k <> (p, n) -> table w_mid !! k = table w !! k) /\
    handleWorkerResult opts ev w = enqueueTask opts p (to_record p n r_mid) w_mid /\
    (exists r', table (snd (handleWorkerResult opts ev w)) !! (p, n) = Some r' /\
       status r' = running /\ metadata r' = md) /\
    (exists payload, jobs (snd (handleWorkerResult opts ev w)) =
       List.app (jobs w) [mkJob (QueueNames "verifier") (p ++ ":" ++ n) payload (jobOptions opts)]).
Proof.
  intros Ht He Hr Hty. cbv zeta.
  set (p := WorkerResultEvent.projectId ev) in *.
  set (n := WorkerResultEvent.nodeId ev) in *.
  set (md := delete "violations" (delete "pendingPatches"
               (oset "draft" (coalesce (jget (WorkerResultEvent.result ev) "draft")
                                       (oget (metadata r) "draft")) (metadata r)))).
  set (meta := mkMeta (jget (WorkerResultEvent.result ev) "draft") None None (Some md)).
  set (w_mid := snd (updateStatus p n pending meta w)).
  set (r_mid := stamp (clock w) (apply_update pending meta r)).
  assert (Hmid : table w_mid !! (p, n) = Some r_mid) by apply updateStatus_at, Hr.
  assert (Heq : handleWorkerResult opts ev w = enqueueTask opts p (to_record p n r_mid) w_mid).
  { unfold handleWorkerResult, handleAutofixSuccess. rewrite Ht, He. cbv beta iota zeta.
    rewrite bind_eq, getTask_world. unfold getTask at 1. cbn [fst]. fold p n. rewrite Hr.
    cbn [option_map]. rewrite bind_eq, bind_eq, getTask_world.
    change (TaskRecord.metadata (to_record p n r)) with (metadata r). fold md meta w_mid.
    unfold getTask. cbn [fst]. rewrite Hmid. reflexivity. }
  exists r_mid, w_mid. split_and!.
  - exact Hmid.
  - reflexivity.
  - reflexivity.
  - reflexivity.
  - apply updateStatus_jobs.
  - intros k Hk. apply updateStatus_other, Hk.
  - exact Heq.
  - rewrite Heq. destruct (enqueueTask_effect opts p (to_record p n r_mid) w_mid) as [_ HL].
    rewrite HL, Hmid. cbn [fmap option_fmap option_map]. eexists.
    split; [rewrite bool_decide_true by reflexivity; reflexivity | split; reflexivity].
  - rewrite Heq. destruct (enqueueTask_effect opts p (to_record p n r_mid) w_mid) as [HJ _].
    rewrite HJ. change (jobs w_mid) with (jobs w). eexists.
    cbn [TaskRecord.type TaskRecord.nodeId to_record]. unfold r_mid. cbn [type stamp apply_update].
    rewrite Hty. reflexivity.
Qed.

(** C4 witness: an autofix result for [verify:1] of [chain_world]. *)
Lemma autofix_success_resets_and_reenqueues_witness :
  exists payload, jobs (snd (handleWorkerResult ∅ autofix_done chain_world)) =
    [mkJob (QueueNames "verifier") "p:verify:1" payload (jobOptions ∅)].
Proof.
  assert (Hv : table chain_world !! ("p", "verify:1") =
               Some (row Planner.verify pending ["write:1"] ["assemble:1"]))
    by (vm_compute; reflexivity).
  pose proof (autofix_success_resets_and_reenqueues ∅ autofix_done chain_world _
                eq_refl eq_refl Hv eq_refl) as H.
  cbv zeta in H. destruct H as [r_mid [w_mid [_ [_ [_ [_ [_ [_ [_ [_ Hj]]]]]]]]]].
  exact Hj.
Defined.

(** Running [enqueueTask] over a list of records leaves every row not named
    by the list as it was and sets every named row [running]. *)
Lemma forM_enqueue_effect opts p (L : list TaskRecord.t) w :
  (forall k, (k.1 <> p \/ ~ In k.2 (List.map TaskRecord.nodeId L)) ->
     table (snd (forM_ L (enqueueTask opts p) w)) !! k = table w !! k) /\
  (forall k, k.1 = p -> In k.2 (List.map TaskRecord.nodeId L) ->
     status <$> table (snd (forM_ L (enqueueTask opts p) w)) !! k =
     (fun _ => running) <$> table w !! k).
Proof.
  revert w. induction L as [|x L IH]; intros w.
  - split; [reflexivity | intros k _ []].
  - cbn [forM_]. rewrite bind_eq. cbv beta.
    destruct (enqueueTask_effect opts p x w) as [_ HL].
    destruct (IH (snd (enqueueTask opts p x w))) as [IHa IHb]. split.
    + intros k Hk. rewrite IHa.
      * rewrite HL. rewrite bool_decide_false; [destruct (table w !! k); reflexivity|].
        intros ->. simpl in Hk. destruct Hk as [Hk|Hk]; apply Hk; [reflexivity | left; reflexivity].
      * destruct Hk as [Hk|Hk]; [left; exact Hk | right; intros H; apply Hk; right; exact H].
    + intros k Hp Hin. simpl in Hin.
      destruct (in_dec string_dec k.2 (List.map TaskRecord.nodeId L)) as [HL'|HL'].
      * rewrite (IHb k Hp HL'), HL. destruct (table w !! k); reflexivity.
      * rewrite IHa by (right; exact HL'). rewrite HL.
        destruct Hin as [Hx|Hx]; [|contradiction].
        rewrite bool_decide_true; [destruct (table w !! k); reflexivity|].
        destruct k as [kp kn]. simpl in *. subst. reflexivity.
Qed.

Lemma ready_records_pending p w m :
  In m (List.map TaskRecord.nodeId (fst (listReadyTasks p w))) ->
  exists r, table w !! (p, m) = Some r /\ status r = pending.
Proof.
  intros Hin. apply in_map_iff in Hin as [tr [Htr Hin]].
  apply listReadyTasks_In in Hin as [n [r [Hl [Hr ->]]]].
  cbn in Htr. subst. exists r. split; [exact Hl | exact (row_ready_pending _ _ _ _ Hr)].
Qed.

Lemma enqueueReadyTasks_unfold opts p w :
  snd (enqueueReadyTasks opts p w) = snd (forM_ (fst (listReadyTasks p w)) (enqueueTask opts p) w).
Proof. unfold enqueueReadyTasks. rewrite bind_eq, listReadyTasks_world. reflexivity. Qed.

(** After [enqueueReadyTasks] no task of the project is ready any more. *)
Lemma enqueueReadyTasks_clears opts p w :
  fst (listReadyTasks p (snd (enqueueReadyTasks opts p w))) = [].
Proof.
  rewrite enqueueReadyTasks_unfold.
  set (L := fst (listReadyTasks p w)).
  destruct (forM_enqueue_effect opts p L w) as [Ha Hb].
  set (w' := snd (forM_ L (enqueueTask opts p) w)) in *.
  apply listReadyTasks_nil. intros n r Hl.
  destruct (row_ready (table w') p (p, n) r) eqn:E; [exfalso|reflexivity].
  pose proof (row_ready_pending _ _ _ _ E) as Hpend.
  destruct (in_dec string_dec n (List.map TaskRecord.nodeId L)) as [Hin|Hnin].
  - specialize (Hb (p, n) eq_refl Hin). rewrite Hl in Hb.
    destruct (table w !! (p, n)); cbn in Hb; [injection Hb as Hb; congruence | discriminate].
  - assert (Hw : table w !! (p, n) = Some r) by (rewrite <- (Ha (p, n) (or_intror Hnin)); exact Hl).
    assert (Hdb : forall d, dep_blocks (table w') p d = dep_blocks (table w) p d).
    { intros d. rewrite !dep_blocks_status.
      destruct (in_dec string_dec d (List.map TaskRecord.nodeId L)) as [Hd|Hd].
      - destruct (ready_records_pending p w d Hd) as [rd [Hrd Hst]].
        pose proof (Hb (p, d) eq_refl Hd) as Hb'. rewrite Hrd in Hb'. cbn in Hb'.
        rewrite Hb', Hrd. cbn. rewrite Hst. reflexivity.
      - rewrite (Ha (p, d) (or_intror Hd)). reflexivity. }
    rewrite (row_ready_ext (table w') (table w) p (p, n) r r Hdb eq_refl eq_refl) in E.
    apply Hnin. apply in_map_iff. exists (to_ready_record p n r). split; [reflexivity|].
    apply listReadyTasks_In. exists n, r. auto.
Qed.

(** A row that is not [pending] is left alone by [enqueueReadyTasks]. *)
Lemma not_pending_untouched opts p w m :
  (forall r, table w !! (p, m) = Some r -> status r <> pending) ->
  table (snd (enqueueReadyTasks opts p w)) !! (p, m) = table w !! (p, m).
Proof.
  intros H. rewrite enqueueReadyTasks_unfold. apply forM_enqueue_effect. right. intros Hin.
  destruct (ready_records_pending _ _ _ Hin) as [r [Hr Hs]]. exact (H r Hr Hs).
Qed.

Lemma enqueueReadyTasks_none opts p w :
  fst (listReadyTasks p w) = [] -> snd (enqueueReadyTasks opts p w) = w.
Proof. intros H. rewrite enqueueReadyTasks_unfold, H. reflexivity. Qed.

(** Writing the same update twice gives the same row, [updated_at] apart. *)
Lemma apply_update_twice st meta r c c' :
  stamp 0 (stamp c (apply_update st meta (stamp c' (apply_update st meta r)))) =
  stamp 0 (stamp c' (apply_update st meta r)).
Proof.
  destruct r, meta as [mr me mt mm]. unfold stamp, apply_update. cbn.
  destruct mm, mr, me, mt; reflexivity.
Qed.

(** A result event without an error that does not go to the verifier branch
    writes [completed] and then dispatches the ready tasks. *)
Lemma completion_shape opts ev t :
  WorkerResultEvent.type ev = Task t ->
  err_truthy (WorkerResultEvent.error ev) = false ->
  (match t with Planner.verify => true | _ => false end &&
   truthy (jget (WorkerResultEvent.result ev) "status")) = false ->
  forall w, handleWorkerResult opts ev w =
    (let! _ := updateStatus (WorkerResultEvent.projectId ev) (WorkerResultEvent.nodeId ev)
                 completed (mkMeta (WorkerResultEvent.result ev) None None None) in
     enqueueReadyTasks opts (WorkerResultEvent.projectId ev)) w.
Proof.
  intros Ht He Hv w. unfold handleWorkerResult. rewrite Ht, He. cbv beta iota zeta.
  rewrite Hv. reflexivity.
Qed.

(** C9.  Delivering the same completed result event (no error, not a
    verifier verdict) a second time enqueues no job, and leaves every row of
    the store as the first delivery left it, up to the [updated_at] stamp
    that the [BEFORE UPDATE] trigger refreshes; after the first delivery the
    node is [completed] with the event's result attached (the old result when
    the event carries none). *)
Theorem duplicate_completion_is_idempotent opts ev t w0 :
  WorkerResultEvent.type ev = Task t ->
  err_truthy (WorkerResultEvent.error ev) = false ->
  (match t with Planner.verify => true | _ => false end &&
   truthy (jget (WorkerResultEvent.result ev) "status")) = false ->
  let w1 := snd (handleWorkerResult opts ev w0) in
  let w2 := snd (handleWorkerResult opts ev w1) in
  jobs w2 = jobs w1 /\
  (forall k, stamp 0 <$> table w2 !! k = stamp 0 <$> table w1 !! k) /\
  (forall r0, table w0 !! (WorkerResultEvent.projectId ev, WorkerResultEvent.nodeId ev) = Some r0 ->
     exists r1, table w1 !! (WorkerResultEvent.projectId ev, WorkerResultEvent.nodeId ev) = Some r1 /\
       status r1 = completed /\
       result r1 = match WorkerResultEvent.result ev with JUndef => result r0 | v => v end).
Proof.
  intros Ht He Hv w1 w2.
  pose proof (completion_shape opts ev t Ht He Hv) as Hs.
  subst w2 w1. rewrite !Hs, !bind_eq. cbv beta.
  set (p := WorkerResultEvent.projectId ev) in *.
  set (n := WorkerResultEvent.nodeId ev) in *.
  set (meta := mkMeta (WorkerResultEvent.result ev) None None None).
  set (u0 := snd (updateStatus p n completed meta w0)).
  set (w1 := snd (enqueueReadyTasks opts p u0)).
  set (u1 := snd (updateStatus p n completed meta w1)).
  (* the node itself is not touched by the dispatch of the first delivery *)
  assert (H1 : table w1 !! (p, n) = table u0 !! (p, n)).
  { apply not_pending_untouched. intros r Hr. subst u0. rewrite updateStatus_lookup in Hr.
    rewrite bool_decide_true in Hr by reflexivity.
    destruct (table w0 !! (p, n)); cbn in Hr; [injection Hr as <-; discriminate | discriminate]. }
  assert (Hu0 : table u0 !! (p, n) =
                (fun r => stamp (clock w0) (apply_update completed meta r)) <$> table w0 !! (p, n)).
  { subst u0. rewrite updateStatus_lookup, bool_decide_true by reflexivity. reflexivity. }
  (* the second write changes no status *)
  assert (Hst : forall k, status <$> table u1 !! k = status <$> table w1 !! k).
  { intros k. subst u1. rewrite updateStatus_lookup.
    destruct (decide (k = (p, n))) as [->|Hk].
    - rewrite bool_decide_true by reflexivity. rewrite H1, Hu0.
      destruct (table w0 !! (p, n)); reflexivity.
    - rewrite bool_decide_false by exact Hk. destruct (table w1 !! k); reflexivity. }
  assert (Hnone : fst (listReadyTasks p u1) = []).
  { apply listReadyTasks_nil. intros m r Hl.
    pose proof (Hst (p, m)) as Hsm. rewrite Hl in Hsm.
    assert (Hdm : dependencies <$> table u1 !! (p, m) = dependencies <$> table w1 !! (p, m)).
    { subst u1. rewrite updateStatus_lookup. destruct (table w1 !! (p, m)); [|reflexivity].
      cbn. destruct (bool_decide _); reflexivity. }
    rewrite Hl in Hdm.
    destruct (table w1 !! (p, m)) as [r1|] eqn:E1; [|discriminate].
    cbn in Hsm, Hdm. injection Hsm as Hsm. injection Hdm as Hdm.
    rewrite (row_ready_ext (table u1) (table w1) p (p, m) r r1
               (dep_blocks_ext _ _ p Hst) Hsm Hdm).
    destruct (row_ready (table w1) p (p, m) r1) eqn:Er; [exfalso|reflexivity].
    pose proof (enqueueReadyTasks_clears opts p u0) as Hc. fold w1 in Hc.
    assert (Hin : In (to_ready_record p m r1) (fst (listReadyTasks p w1))).
    { apply listReadyTasks_In. exists m, r1. auto. }
    rewrite Hc in Hin. exact Hin. }
  rewrite (enqueueReadyTasks_none opts p u1 Hnone).
  split; [|split].
  - subst u1. apply updateStatus_jobs.
  - intros k. subst u1. rewrite updateStatus_lookup.
    destruct (decide (k = (p, n))) as [->|Hk].
    + rewrite bool_decide_true by reflexivity. rewrite H1, Hu0.
      destruct (table w0 !! (p, n)); [|reflexivity]. cbn. f_equal. apply apply_update_twice.
    + rewrite bool_decide_false by exact Hk. destruct (table w1 !! k); reflexivity.
  - intros r0 Hr0. rewrite H1, Hu0, Hr0. eexists. split; [reflexivity|].
    split; reflexivity.
Qed.

(** C9 witness: [write_done] delivered twice to [chain_world]. *)
Lemma duplicate_completion_is_idempotent_witness :
  let w1 := snd (handleWorkerResult ∅ write_done chain_world) in
  jobs (snd (handleWorkerResult ∅ write_done w1)) = jobs w1 /\
  exists r1, table w1 !! ("p", "write:1") = Some r1 /\ status r1 = completed.
Proof.
  pose proof (duplicate_completion_is_idempotent ∅ write_done Planner.write chain_world
                eq_refl eq_refl eq_refl) as H.
  cbv zeta in H. destruct H as [Hj [_ Hr]]. cbv zeta. split; [exact Hj|].
  destruct (Hr (row Planner.write running ["prepare:1"] ["verify:1"])) as [r1 [H1 [H2 _]]].
  - vm_compute. reflexivity.
  - exists r1. split; [exact H1 | exact H2].
Defined.

End DispatcherClaims.

(* ------------------------------------------------------------------ *)
(** ** The rest of [TaskStateStore] and [TaskDispatcher.schedule] *)

Module StoreOps.
Import TaskState Dispatcher.

(** [clearProject]: [DELETE FROM task_state WHERE project_id = p]. *)
Definition clearProject (p : string) : M unit :=
  fun w => (tt, mkWorld (filter (fun kr : (string * string) * Row => kr.1.1 <> p) (table w))
                  (jobs w) (clock w)).

(** [select("dependents") ... .maybeSingle()] followed by [data?.dependents ?? []]. *)
Definition select_dependents (p n : string) : M (list string) :=
  fun w => (match table w !! (p, n) with Some r => dependents r | None => [] end, w).

(** [addDependent]: read the dependents array, append [toNode] when it is not
    already there and write the array back. *)
Definition addDependent (p fromNode toNode : string) : M unit :=
  let! ds := select_dependents p fromNode in
  if existsb (String.eqb toNode) ds then ret tt
  else sql_update (fun k => bool_decide (k = (p, fromNode)))
         (fun r => mkRow (type r) (status r) (dependencies r) (List.app ds [toNode])
                     (metadata r) (result r) (error r) (retries r) (updated_at r)).

(** A double quote character, as one string. *)
Definition dquote : string := String (Ascii.ascii_of_nat 34) EmptyString.

(** The error PostgreSQL reports for a row whose key [(project_id, node_id)]
    is already taken; it puts the constraint name in double quotes:
    duplicate key value violates unique constraint "task_state_pkey". *)
Definition pkey_violation : string :=
  "duplicate key value violates unique constraint " ++ dquote ++ "task_state_pkey" ++ dquote.

(** The row [persistDag] inserts for a node: the columns it sets, and the
    column defaults of the table for the others. *)
Definition new_row (n : Planner.TaskNode) (now : nat) : Row :=
  mkRow (Planner.type n) pending (Planner.dependencies n) []
    (match Planner.metadata n with Some m => m | None => ∅ end) JNull None 0 now.

(** [insert(payload)]: one statement, so either every row is inserted, or, on a
    key that is taken (already stored, or twice in the payload), none is and
    the error is returned. *)
Definition insert_nodes (p : string) (ns : list Planner.TaskNode) : M (option string) :=
  fun w =>
    let keys := List.map (fun n => (p, Planner.id n)) ns in
    if bool_decide (NoDup keys) && forallb (fun k => bool_decide (table w !! k = None)) keys
    then (None, mkWorld (list_to_map (List.map (fun n => ((p, Planner.id n), new_row n (clock w))) ns)
                           ∪ table w) (jobs w) (S (clock w)))
    else (Some pkey_violation, w).

(** [persistDag]; [Some msg] is the error it throws. *)
Definition persistDag (p : string) (dag : Planner.TaskDag) : M (option string) :=
  let! err := insert_nodes p (Planner.nodes dag) in
  match err with
  | Some msg => ret (Some ("保存任务图失败: " ++ msg))
  | None =>
      let! _ := forM_ (Planner.edges dag) (fun e => addDependent p (Planner.from e) (Planner.to e)) in
      ret None
  end.

(** [TaskDispatcher.schedule(projectId, dag, { reset })] of a dispatcher whose
    [options.enqueue ?? {}] is [opts]; [Some msg] is the error it throws. *)
Definition schedule (opts : obj) (p : string) (dag : Planner.TaskDag) (reset : bool)
    : M (option string) :=
  let! _ := (if reset then clearProject p else ret tt) in
  let! err := persistDag p dag in
  match err with
  | Some msg => ret (Some msg)
  | None => let! _ := enqueueReadyTasks opts p in ret None
  end.

(** [.order("updated_at", { ascending: false })] *)
Definition newer_first (a b : TaskRecord.t) : Prop :=
  TaskRecord.updatedAt b <= TaskRecord.updatedAt a.

#[export] Instance newer_first_dec : RelDecision newer_first.
Proof. intros a b. unfold newer_first. apply _. Defined.

(** [listTasks(projectId, { statuses })]; an absent [statuses] and an empty
    one both mean no filter ([[]] here).  Rows with the same [updated_at]
    come in the table's order. *)
Definition listTasks (p : string) (statuses : list TaskStatus) : M (list TaskRecord.t) :=
  fun w =>
    let rows := List.filter (fun kr => bool_decide (kr.1.1 = p)) (map_to_list (table w)) in
    let rows := match statuses with
                | [] => rows
                | _ => List.filter (fun kr => bool_decide (status kr.2 ∈ statuses)) rows
                end in
    (merge_sort newer_first (List.map (fun kr => to_record kr.1.1 kr.1.2 kr.2) rows), w).

End StoreOps.

(* ------------------------------------------------------------------ *)
(** ** Facts about [addDependent], [persistDag], [listTasks] and [schedule] *)

Module StoreOpsFacts.
Import TaskState Dispatcher StoreFacts StoreOps DispatcherClaims.

(** Every column of [r'] but [dependents] and [updated_at] is that of [r]. *)
Definition same_but_dependents (r r' : Row) : Prop :=
  type r' = type r /\ status r' = status r /\ dependencies r' = dependencies r /\
  metadata r' = metadata r /\ result r' = result r /\ error r' = error r /\
  retries r' = retries r.

Lemma same_but_dependents_refl r : same_but_dependents r r.
Proof. repeat split. Qed.

Lemma same_but_dependents_trans r1 r2 r3 :
  same_but_dependents r1 r2 -> same_but_dependents r2 r3 -> same_but_dependents r1 r3.
Proof. unfold same_but_dependents. intuition congruence. Qed.

Lemma existsb_eqb_In (t : string) l : existsb (String.eqb t) l = true <-> In t l.
Proof.
  rewrite existsb_exists. split.
  - intros [x [Hx He]]. apply String.eqb_eq in He. subst. exact Hx.
  - intros H. exists t. split; [exact H | apply String.eqb_refl].
Qed.

Lemma NoDup_snoc (l : list string) t : NoDup l -> ~ In t l -> NoDup (List.app l [t]).
Proof.
  induction l as [|x l IH]; simpl; intros Hn Ht.
  - apply NoDup_singleton.
  - inversion Hn as [|? ? Hx Hl]; subst. constructor.
    + rewrite list_elem_of_In, in_app_iff. rewrite list_elem_of_In in Hx. simpl. intuition.
    + apply IH; auto.
Qed.

(** The table after [addDependent]. *)
Lemma addDependent_table p f t w :
  table (snd (addDependent p f t w)) =
  match table w !! (p, f) with
  | Some r =>
      if existsb (String.eqb t) (dependents r) then table w
      else <[(p, f) := stamp (clock w)
                 (mkRow (type r) (status r) (dependencies r) (List.app (dependents r) [t])
                    (metadata r) (result r) (error r) (retries r) (updated_at r))]> (table w)
  | None => table w
  end.
Proof.
  unfold addDependent. rewrite bind_eq. unfold select_dependents. cbn [fst snd].
  destruct (table w !! (p, f)) as [r|] eqn:E; cbv beta iota.
  - destruct (existsb (String.eqb t) (dependents r)); [reflexivity|].
    apply map_eq. intros k. rewrite sql_update_lookup.
    destruct (decide (k = (p, f))) as [->|Hk].
    + rewrite lookup_insert_eq, E, bool_decide_true by reflexivity. reflexivity.
    + rewrite lookup_insert_ne by congruence. rewrite bool_decide_false by exact Hk.
      destruct (table w !! k); reflexivity.
  - cbn [existsb]. apply map_eq. intros k. rewrite sql_update_lookup.
    destruct (decide (k = (p, f))) as [->|Hk]; [rewrite E; reflexivity|].
    rewrite bool_decide_false by exact Hk. destruct (table w !! k); reflexivity.
Qed.

Lemma addDependent_jobs p f t w : jobs (snd (addDependent p f t w)) = jobs w.
Proof.
  unfold addDependent. rewrite bind_eq. cbn [fst snd select_dependents].
  destruct (existsb _ _); reflexivity.
Qed.

(** One [addDependent] call, seen from one key. *)
Lemma addDependent_step p f t w k :
  let w' := snd (addDependent p f t w) in
  jobs w' = jobs w /\
  (k <> (p, f) -> table w' !! k = table w !! k) /\
  (table w !! k = None -> table w' !! k = None) /\
  (forall r, table w !! k = Some r -> NoDup (dependents r) ->
     exists r', table w' !! k = Some r' /\ same_but_dependents r r' /\ NoDup (dependents r') /\
       forall x, In x (dependents r') <-> In x (dependents r) \/ ((p, f) = k /\ t = x)).
Proof.
  cbv zeta. rewrite addDependent_jobs, addDependent_table. split; [reflexivity|].
  destruct (table w !! (p, f)) as [r0|] eqn:E.
  2:{ split; [reflexivity|]. split; [auto|]. intros r Hr Hn. exists r.
      split; [exact Hr|]. split; [apply same_but_dependents_refl|]. split; [exact Hn|].
      intros x. split; [auto|]. intros [H|[<- _]]; [exact H|]. congruence. }
  destruct (existsb (String.eqb t) (dependents r0)) eqn:Ex.
  - split; [reflexivity|]. split; [auto|]. intros r Hr Hn. exists r.
    split; [exact Hr|]. split; [apply same_but_dependents_refl|]. split; [exact Hn|].
    intros x. split; [auto|]. intros [H|[<- <-]]; [exact H|].
    rewrite E in Hr. injection Hr as <-. apply existsb_eqb_In, Ex.
  - split; [intros Hk; apply lookup_insert_ne; congruence|].
    split.
    { intros Hk. destruct (decide (k = (p, f))) as [->|Hk']; [congruence|].
      rewrite lookup_insert_ne by congruence. exact Hk. }
    intros r Hr Hn. destruct (decide (k = (p, f))) as [->|Hk].
    + rewrite E in Hr. injection Hr as <-. eexists. rewrite lookup_insert_eq.
      split; [reflexivity|]. split; [repeat split|]. cbn [dependents stamp].
      split; [apply NoDup_snoc; [exact Hn|]; intros Hin; apply existsb_eqb_In in Hin; congruence|].
      intros x. rewrite in_app_iff. simpl. intuition congruence.
    + rewrite lookup_insert_ne by congruence. exists r. split; [exact Hr|].
      split; [apply same_but_dependents_refl|]. split; [exact Hn|].
      intros x. split; [auto|]. intros [H|[H _]]; [exact H | congruence].
Qed.

(** The edge loop of [persistDag], seen from one key. *)
Lemma forM_addDependent p (es : list Planner.TaskEdge) w k :
  jobs (snd (forM_ es (fun e => addDependent p (Planner.from e) (Planner.to e)) w)) = jobs w /\
  ((forall e, In e es -> k <> (p, Planner.from e)) ->
     table (snd (forM_ es (fun e => addDependent p (Planner.from e) (Planner.to e)) w)) !! k =
     table w !! k) /\
  (table w !! k = None ->
     table (snd (forM_ es (fun e => addDependent p (Planner.from e) (Planner.to e)) w)) !! k = None) /\
  (forall r, table w !! k = Some r -> NoDup (dependents r) ->
     exists r', table (snd (forM_ es (fun e => addDependent p (Planner.from e) (Planner.to e)) w)) !! k
                = Some r' /\
       same_but_dependents r r' /\ NoDup (dependents r') /\
       forall x, In x (dependents r') <->
         In x (dependents r) \/ exists e, In e es /\ (p, Planner.from e) = k /\ Planner.to e = x).
Proof.
  revert w. induction es as [|e es IH]; intros w.
  - cbn [forM_]. split; [reflexivity|]. split; [auto|]. split; [auto|].
    intros r Hr Hn. exists r. split; [exact Hr|]. split; [apply same_but_dependents_refl|].
    split; [exact Hn|]. intros x. split; [auto|]. intros [H|[e [[] _]]]. exact H.
  - cbn [forM_]. rewrite bind_eq. cbv beta.
    pose proof (addDependent_step p (Planner.from e) (Planner.to e) w k) as S1.
    cbv zeta in S1. destruct S1 as [J1 [F1 [N1 S1]]].
    destruct (IH (snd (addDependent p (Planner.from e) (Planner.to e) w))) as [J2 [F2 [N2 S2]]].
    split; [congruence|]. split.
    + intros H. rewrite F2 by (intros e' He'; apply H; right; exact He').
      apply F1. apply H. left. reflexivity.
    + split; [auto|]. intros r Hr Hn.
      destruct (S1 r Hr Hn) as [r1 [Hr1 [Hs1 [Hn1 Hx1]]]].
      destruct (S2 r1 Hr1 Hn1) as [r2 [Hr2 [Hs2 [Hn2 Hx2]]]].
      exists r2. split; [exact Hr2|]. split; [eapply same_but_dependents_trans; eauto|].
      split; [exact Hn2|]. intros x. rewrite Hx2, Hx1. split.
      * intros [[H|[H1 H2]]|[e' [He' [H1 H2]]]].
        -- left. exact H.
        -- right. exists e. simpl. auto.
        -- right. exists e'. simpl. auto.
      * intros [H|[e' [[<-|He'] [H1 H2]]]].
        -- left. left. exact H.
        -- left. right. auto.
        -- right. exists e'. auto.
Qed.

Lemma fmap_List_map {A B} (f : A -> B) (l : list A) : f <$> l = List.map f l.
Proof. induction l as [|x l IH]; simpl; [reflexivity|]. rewrite <- IH. reflexivity. Qed.

Lemma NoDup_keys (p : string) (ns : list Planner.TaskNode) :
  NoDup (List.map (fun n => (p, Planner.id n)) ns) <-> NoDup (List.map Planner.id ns).
Proof.
  induction ns as [|a ns IH]; simpl.
  - split; intros; apply NoDup_nil_2.
  - assert (E : In (p, Planner.id a) (List.map (fun n => (p, Planner.id n)) ns) <->
                In (Planner.id a) (List.map Planner.id ns)).
    { rewrite !in_map_iff. split; intros [x [Hx Hin]]; exists x; split; auto.
      - injection Hx. auto.
      - rewrite Hx. reflexivity. }
    rewrite !NoDup_cons, !list_elem_of_In, E, IH. reflexivity.
Qed.

(** The insert of [persistDag] when no key is taken. *)
Lemma insert_nodes_ok p ns w :
  NoDup (List.map Planner.id ns) ->
  (forall n, In n ns -> table w !! (p, Planner.id n) = None) ->
  insert_nodes p ns w =
  (None, mkWorld (list_to_map (List.map (fun n => ((p, Planner.id n), new_row n (clock w))) ns)
                    ∪ table w) (jobs w) (S (clock w))).
Proof.
  intros Hd Hf. unfold insert_nodes. cbv zeta.
  rewrite bool_decide_true by (apply NoDup_keys; exact Hd).
  replace (forallb _ _) with true; [reflexivity|]. symmetry. apply forallb_forall.
  intros k Hk. apply in_map_iff in Hk as [n [<- Hn]].
  apply bool_decide_eq_true_2. apply Hf, Hn.
Qed.

(** The insert of [persistDag] when a key is taken. *)
Lemma insert_nodes_fail p ns w :
  (~ NoDup (List.map Planner.id ns) \/
   exists n, In n ns /\ table w !! (p, Planner.id n) <> None) ->
  insert_nodes p ns w = (Some pkey_violation, w).
Proof.
  intros H. unfold insert_nodes. cbv zeta.
  destruct (bool_decide (NoDup _)) eqn:E1; [|reflexivity].
  destruct (forallb _ _) eqn:E2; [|reflexivity]. exfalso.
  destruct H as [H|[n [Hn Hne]]].
  - apply H. apply (NoDup_keys p). exact (bool_decide_eq_true_1 _ E1).
  - rewrite forallb_forall in E2. apply Hne.
    apply (bool_decide_eq_true_1 (table w !! (p, Planner.id n) = None)). apply E2.
    apply in_map_iff. exists n. auto.
Qed.

Lemma insert_lookup_node (p : string) (ns : list Planner.TaskNode) (c : nat) (t : Table) n :
  NoDup (List.map Planner.id ns) -> In n ns ->
  (list_to_map (List.map (fun n => ((p, Planner.id n), new_row n c)) ns) ∪ t) !! (p, Planner.id n)
  = Some (new_row n c).
Proof.
  intros Hd Hn. apply lookup_union_Some_l. apply elem_of_list_to_map_1.
  - rewrite fmap_List_map, map_map. simpl. apply NoDup_keys, Hd.
  - apply list_elem_of_In, in_map_iff. exists n. auto.
Qed.

Lemma insert_lookup_other (p : string) (ns : list Planner.TaskNode) (c : nat) (t : Table) k :
  (forall n, In n ns -> k <> (p, Planner.id n)) ->
  (list_to_map (List.map (fun n => ((p, Planner.id n), new_row n c)) ns) ∪ t) !! k = t !! k.
Proof.
  intros H. apply lookup_union_r. apply not_elem_of_list_to_map_1.
  rewrite fmap_List_map, map_map, list_elem_of_In, in_map_iff.
  intros [n [Hk Hn]]. simpl in Hk. exact (H n Hn (eq_sym Hk)).
Qed.

Lemma persistDag_fail p dag w :
  (~ NoDup (List.map Planner.id (Planner.nodes dag)) \/
   exists n, In n (Planner.nodes dag) /\ table w !! (p, Planner.id n) <> None) ->
  persistDag p dag w = (Some ("保存任务图失败: " ++ pkey_violation), w).
Proof. intros H. unfold persistDag. rewrite bind_eq, insert_nodes_fail by exact H. reflexivity. Qed.

(** The rows [persistDag] leaves when no key is taken. *)
Lemma persistDag_ok p dag w :
  NoDup (List.map Planner.id (Planner.nodes dag)) ->
  (forall n, In n (Planner.nodes dag) -> table w !! (p, Planner.id n) = None) ->
  let w' := snd (persistDag p dag w) in
  fst (persistDag p dag w) = None /\
  jobs w' = jobs w /\
  (forall k, k.1 <> p -> table w' !! k = table w !! k) /\
  (forall k, table w !! k = None -> (forall n, In n (Planner.nodes dag) -> k <> (p, Planner.id n)) ->
     table w' !! k = None) /\
  (forall n, In n (Planner.nodes dag) ->
     exists r, table w' !! (p, Planner.id n) = Some r /\
       same_but_dependents (new_row n (clock w)) r /\ NoDup (dependents r) /\
       forall x, In x (dependents r) <->
         exists e, In e (Planner.edges dag) /\ Planner.from e = Planner.id n /\ Planner.to e = x).
Proof.
  intros Hd Hf. cbv zeta. unfold persistDag. rewrite bind_eq, insert_nodes_ok by assumption.
  cbn [fst snd]. rewrite bind_eq. cbn [fst snd ret].
  set (W1 := mkWorld _ (jobs w) (S (clock w))).
  split; [reflexivity|].
  split; [apply (forM_addDependent p (Planner.edges dag) W1 (p, ""))|].
  split; [|split].
  - intros k Hk. destruct (forM_addDependent p (Planner.edges dag) W1 k) as [_ [F _]].
    rewrite F by (intros e _ ->; apply Hk; reflexivity).
    apply insert_lookup_other. intros n _ ->. apply Hk. reflexivity.
  - intros k Hk Hn. destruct (forM_addDependent p (Planner.edges dag) W1 k) as [_ [_ [N _]]].
    apply N. cbn [table W1]. rewrite insert_lookup_other by exact Hn. exact Hk.
  - intros n Hn. destruct (forM_addDependent p (Planner.edges dag) W1 (p, Planner.id n))
      as [_ [_ [_ S]]].
    destruct (S (new_row n (clock w))) as [r [Hr [Hs [Hnd Hx]]]].
    + cbn [table W1]. apply insert_lookup_node; assumption.
    + apply NoDup_nil_2.
    + exists r. split; [exact Hr|]. split; [exact Hs|]. split; [exact Hnd|].
      intros x. rewrite Hx. cbn [new_row dependents]. split.
      * intros [[]|[e [He [Hf' Ht]]]]. exists e. split; [exact He|]. split; [|exact Ht].
        injection Hf'. auto.
      * intros [e [He [Hf' Ht]]]. right. exists e. rewrite Hf'. auto.
Qed.

(** The rows [persistDag] leaves outside the DAG when no key is taken. *)
Lemma persistDag_other_rows p dag w :
  NoDup (List.map Planner.id (Planner.nodes dag)) ->
  (forall n, In n (Planner.nodes dag) -> table w !! (p, Planner.id n) = None) ->
  let w' := snd (persistDag p dag w) in
  (forall k, (forall n, In n (Planner.nodes dag) -> k <> (p, Planner.id n)) ->
     (forall e, In e (Planner.edges dag) -> k <> (p, Planner.from e)) ->
     table w' !! k = table w !! k) /\
  (forall k r, (forall n, In n (Planner.nodes dag) -> k <> (p, Planner.id n)) ->
     table w !! k = Some r -> NoDup (dependents r) ->
     exists r', table w' !! k = Some r' /\ same_but_dependents r r' /\ NoDup (dependents r') /\
       forall x, In x (dependents r') <->
         In x (dependents r) \/
         exists e, In e (Planner.edges dag) /\ (p, Planner.from e) = k /\ Planner.to e = x).
Proof.
  intros Hd Hf. cbv zeta. unfold persistDag. rewrite bind_eq, insert_nodes_ok by assumption.
  cbn [fst snd]. rewrite bind_eq. cbn [fst snd ret].
  set (W1 := mkWorld _ (jobs w) (S (clock w))).
  split.
  - intros k Hn He. destruct (forM_addDependent p (Planner.edges dag) W1 k) as [_ [F _]].
    rewrite F by exact He. cbn [table W1]. apply insert_lookup_other, Hn.
  - intros k r Hn Hr Hnd. destruct (forM_addDependent p (Planner.edges dag) W1 k)
      as [_ [_ [_ S]]].
    apply S; [|exact Hnd]. cbn [table W1]. rewrite insert_lookup_other by exact Hn. exact Hr.
Qed.

(** ** Extra properties of the store *)

(** [addDependent] on a stored row: the dependents array gains [toNode] once
    (it stays duplicate-free), no other column and no other row changes, and
    no job is added. *)
Theorem addDependent_adds_once (p fromNode toNode : string) (w : World) (r : Row) :
  table w !! (p, fromNode) = Some r -> NoDup (dependents r) ->
  let w' := snd (addDependent p fromNode toNode w) in
  (exists r', table w' !! (p, fromNode) = Some r' /\ same_but_dependents r r' /\
     NoDup (dependents r') /\
     forall x, In x (dependents r') <-> In x (dependents r) \/ x = toNode) /\
  (forall k, k <> (p, fromNode) -> table w' !! k = table w !! k) /\
  jobs w' = jobs w.
Proof.
  intros Hr Hn. cbv zeta.
  pose proof (addDependent_step p fromNode toNode w (p, fromNode)) as S.
  cbv zeta in S. destruct S as [J [_ [_ S]]].
  split; [|split; [|exact J]].
  - destruct (S r Hr Hn) as [r' [Hr' [Hs [Hnd Hx]]]]. exists r'.
    split; [exact Hr'|]. split; [exact Hs|]. split; [exact Hnd|].
    intros x. rewrite Hx. intuition.
  - intros k Hk. pose proof (addDependent_step p fromNode toNode w k) as S'.
    cbv zeta in S'. destruct S' as [_ [F _]]. exact (F Hk).
Qed.

(** Repeating an [addDependent] call changes no row: the array already holds
    the node; and on a node without a row, no call creates one. *)
Theorem addDependent_repeat_is_noop (p fromNode toNode : string) (w : World) :
  let w1 := snd (addDependent p fromNode toNode w) in
  table (snd (addDependent p fromNode toNode w1)) = table w1 /\
  (table w !! (p, fromNode) = None -> table w1 = table w).
Proof.
  cbv zeta. split.
  - rewrite (addDependent_table p fromNode toNode (snd (addDependent p fromNode toNode w))).
    rewrite addDependent_table. destruct (table w !! (p, fromNode)) as [r|] eqn:E.
    + destruct (existsb (String.eqb toNode) (dependents r)) eqn:Ex.
      * rewrite E, Ex. reflexivity.
      * rewrite lookup_insert_eq. cbn [dependents stamp].
        replace (existsb (String.eqb toNode) (List.app (dependents r) [toNode])) with true;
          [reflexivity|].
        symmetry. apply existsb_eqb_In. apply in_or_app. right. left. reflexivity.
    + rewrite E. reflexivity.
  - intros E. rewrite addDependent_table, E. reflexivity.
Qed.

(** [persistDag] when a node id is taken, by an earlier node of the same DAG
    or by a stored row of the project: it throws the insert error and writes
    nothing, not even a dependent. *)
Theorem persistDag_rejects_taken_ids (p : string) (dag : Planner.TaskDag) (w : World) :
  (~ NoDup (List.map Planner.id (Planner.nodes dag)) \/
   exists n, In n (Planner.nodes dag) /\ table w !! (p, Planner.id n) <> None) ->
  persistDag p dag w = (Some ("保存任务图失败: " ++ pkey_violation), w).
Proof. apply persistDag_fail. Qed.

(** [persistDag] with fresh, distinct node ids: every node gets a [pending]
    row with its type, its dependencies, its metadata (or [{}]), no result, no
    error and no retry; its dependents are the targets of its outgoing edges,
    each once; rows of other projects stay as they were, no other row is
    created and no job is added. A row of the project outside the DAG stays
    as it was unless an edge leaves from it; a stored one that edges leave
    from (with duplicate-free dependents) keeps every column but its
    dependents, which gain the targets of those edges, each once. *)
Theorem persistDag_writes_dag (p : string) (dag : Planner.TaskDag) (w : World) :
  NoDup (List.map Planner.id (Planner.nodes dag)) ->
  (forall n, In n (Planner.nodes dag) -> table w !! (p, Planner.id n) = None) ->
  let w' := snd (persistDag p dag w) in
  fst (persistDag p dag w) = None /\
  jobs w' = jobs w /\
  (forall k, k.1 <> p -> table w' !! k = table w !! k) /\
  (forall k, table w !! k = None -> (forall n, In n (Planner.nodes dag) -> k <> (p, Planner.id n)) ->
     table w' !! k = None) /\
  (forall k, (forall n, In n (Planner.nodes dag) -> k <> (p, Planner.id n)) ->
     (forall e, In e (Planner.edges dag) -> k <> (p, Planner.from e)) ->
     table w' !! k = table w !! k) /\
  (forall k r, (forall n, In n (Planner.nodes dag) -> k <> (p, Planner.id n)) ->
     table w !! k = Some r -> NoDup (dependents r) ->
     exists r', table w' !! k = Some r' /\ same_but_dependents r r' /\ NoDup (dependents r') /\
       forall x, In x (dependents r') <->
         In x (dependents r) \/
         exists e, In e (Planner.edges dag) /\ (p, Planner.from e) = k /\ Planner.to e = x) /\
  (forall n, In n (Planner.nodes dag) ->
     exists r, table w' !! (p, Planner.id n) = Some r /\
       type r = Planner.type n /\ status r = pending /\
       dependencies r = Planner.dependencies n /\
       metadata r = match Planner.metadata n with Some m => m | None => ∅ end /\
       result r = JNull /\ error r = None /\ retries r = 0 /\
       NoDup (dependents r) /\
       forall x, In x (dependents r) <->
         exists e, In e (Planner.edges dag) /\ Planner.from e = Planner.id n /\ Planner.to e = x).
Proof.
  intros Hd Hf. pose proof (persistDag_ok p dag w Hd Hf) as H.
  pose proof (persistDag_other_rows p dag w Hd Hf) as [H6 H7]. cbv zeta in *.
  destruct H as [H1 [H2 [H3 [H4 H5]]]]. split; [exact H1|]. split; [exact H2|].
  split; [exact H3|]. split; [exact H4|]. split; [exact H6|]. split; [exact H7|].
  intros n Hn. destruct (H5 n Hn) as [r [Hr [[T [S [D [Md [R [E Rt]]]]]] [Hnd Hx]]]].
  exists r. cbn [new_row type status dependencies metadata result error retries] in *.
  repeat split; assumption || (apply Hx; assumption) || idtac.
  all: intros Hin; apply Hx; exact Hin.
Qed.

#[local] Instance newer_first_total : Total newer_first.
Proof. intros a b. unfold newer_first. lia. Qed.

(** [listTasks]: the records of the project's rows whose status is one of
    [statuses] (every row when the list is empty), newest [updated_at]
    first; the store is only read. *)
Theorem listTasks_filters_and_orders (p : string) (statuses : list TaskStatus) (w : World) :
  let l := fst (listTasks p statuses w) in
  snd (listTasks p statuses w) = w /\
  Sorted newer_first l /\
  forall tr, In tr l <->
    exists n r, table w !! (p, n) = Some r /\ (statuses = [] \/ status r ∈ statuses) /\
                tr = to_record p n r.
Proof.
  cbv zeta. unfold listTasks. cbv zeta. cbn [fst snd].
  split; [reflexivity|]. split; [apply Sorted_merge_sort; exact newer_first_total|].
  intros tr.
  assert (HP : forall (x : TaskRecord.t) L, In x (merge_sort newer_first L) <-> In x L).
  { intros x L. split; apply Permutation_in; [|symmetry]; apply merge_sort_Permutation. }
  rewrite HP, in_map_iff. split.
  - intros [[[p' n] r] [Heq Hin]].
    destruct statuses as [|s ss].
    + apply filter_In in Hin as [Hin Hp]. apply bool_decide_eq_true_1 in Hp. simpl in Hp. subst p'.
      apply list_elem_of_In, elem_of_map_to_list in Hin.
      exists n, r. split; [exact Hin|]. split; [left; reflexivity|]. symmetry. exact Heq.
    + apply filter_In in Hin as [Hin Hs]. apply filter_In in Hin as [Hin Hp].
      apply bool_decide_eq_true_1 in Hp. apply bool_decide_eq_true_1 in Hs. simpl in Hp, Hs.
      subst p'. apply list_elem_of_In, elem_of_map_to_list in Hin.
      exists n, r. split; [exact Hin|]. split; [right; exact Hs|]. symmetry. exact Heq.
  - intros [n [r [Hl [Hs ->]]]]. exists ((p, n), r). split; [reflexivity|].
    assert (Hm : In ((p, n), r) (map_to_list (table w)))
      by (apply list_elem_of_In, elem_of_map_to_list, Hl).
    destruct statuses as [|s ss].
    + apply filter_In. split; [exact Hm | apply bool_decide_eq_true_2; reflexivity].
    + destruct Hs as [Hs|Hs]; [discriminate|].
      apply filter_In. split; [|apply bool_decide_eq_true_2; exact Hs].
      apply filter_In. split; [exact Hm | apply bool_decide_eq_true_2; reflexivity].
Qed.

Lemma clearProject_lookup p w k :
  table (snd (clearProject p w)) !! k = if decide (k.1 = p) then None else table w !! k.
Proof.
  unfold clearProject. cbn [table snd]. rewrite map_lookup_filter.
  destruct (table w !! k) as [r|]; simpl; destruct (decide (k.1 = p)) as [E|E].
  - rewrite option_guard_False by (intros H; apply H, E). reflexivity.
  - rewrite option_guard_True by exact E. reflexivity.
  - reflexivity.
  - reflexivity.
Qed.

Lemma clearProject_jobs p w : jobs (snd (clearProject p w)) = jobs w.
Proof. reflexivity. Qed.

Lemma NoDup_map_inj {A B} (f : A -> B) (l : list A) :
  (forall x y, f x = f y -> x = y) -> NoDup l -> NoDup (List.map f l).
Proof.
  intros Hf. induction l as [|x l IH]; simpl; intros Hn; [constructor|].
  rewrite NoDup_cons in Hn. rewrite NoDup_cons. destruct Hn as [Hx Hl]. split; [|exact (IH Hl)].
  rewrite list_elem_of_In, in_map_iff. intros [y [Hy Hin]].
  apply Hx. apply list_elem_of_In. rewrite <- (Hf _ _ Hy). exact Hin.
Qed.

Lemma NoDup_second (p : string) (h : (string * string) * Row -> bool)
    (L : list ((string * string) * Row)) :
  NoDup (List.map fst L) -> (forall kr, h kr = true -> kr.1.1 = p) ->
  NoDup (List.map (fun kr => kr.1.2) (List.filter h L)).
Proof.
  intros Hn Hp. induction L as [|a L IH]; simpl; [constructor|].
  simpl in Hn. rewrite NoDup_cons in Hn. destruct Hn as [Ha Hn].
  destruct (h a) eqn:Eh; [|exact (IH Hn)].
  simpl. rewrite NoDup_cons. split; [|exact (IH Hn)].
  rewrite list_elem_of_In, in_map_iff. intros [b [Hb Hin]].
  apply filter_In in Hin as [Hin Hhb]. apply Ha. rewrite list_elem_of_In, in_map_iff.
  exists b. split; [|exact Hin].
  pose proof (Hp a Eh) as E1. pose proof (Hp b Hhb) as E2.
  destruct a as [[a1 a2] ra], b as [[b1 b2] rb]. simpl in *. subst. reflexivity.
Qed.

(** [list_ready_tasks] returns each node at most once. *)
Lemma listReadyTasks_NoDup p w :
  NoDup (List.map TaskRecord.nodeId (fst (listReadyTasks p w))).
Proof.
  unfold listReadyTasks. cbn [fst]. rewrite map_map.
  apply (NoDup_second p).
  - rewrite <- fmap_List_map. apply NoDup_fst_map_to_list.
  - intros kr H. unfold row_ready in H.
    apply andb_true_iff in H as [H _]. apply andb_true_iff in H as [H _].
    exact (bool_decide_eq_true_1 _ H).
Qed.

(** The jobs added by running [enqueueTask] over a list of records. *)
Lemma forM_enqueue_jobs opts p (L : list TaskRecord.t) w :
  exists J, jobs (snd (forM_ L (enqueueTask opts p) w)) = List.app (jobs w) J /\
    List.map job_name J = List.map (fun tr => p ++ ":" ++ TaskRecord.nodeId tr) L /\
    List.map job_queue J = List.map (fun tr => resolveQueue (TaskRecord.type tr)) L.
Proof.
  revert w. induction L as [|x L IH]; intros w.
  - exists []. rewrite app_nil_r. repeat split.
  - cbn [forM_]. rewrite bind_eq. cbv beta.
    destruct (enqueueTask_effect opts p x w) as [Hj _].
    destruct (IH (snd (enqueueTask opts p x w))) as [J [HJ [HN HQ]]].
    eexists (_ :: J). split; [rewrite HJ, Hj, <- app_assoc; reflexivity|].
    cbn. rewrite HN, HQ. split; reflexivity.
Qed.

(** [enqueueTask] writes only the status (and the stamp). *)
Lemma forM_enqueue_cols opts p (L : list TaskRecord.t) w k :
  (fun r => (type r, dependencies r, dependents r)) <$> table (snd (forM_ L (enqueueTask opts p) w)) !! k
  = (fun r => (type r, dependencies r, dependents r)) <$> table w !! k.
Proof.
  revert w. induction L as [|x L IH]; intros w; [reflexivity|].
  cbn [forM_]. rewrite bind_eq. cbv beta. rewrite IH.
  destruct (enqueueTask_effect opts p x w) as [_ Ht]. rewrite Ht.
  destruct (table w !! k); [|reflexivity]. cbn. destruct (bool_decide _); reflexivity.
Qed.

Lemma NoDup_map_same {A B} (f : A -> B) (l : list A) x y :
  NoDup (List.map f l) -> In x l -> In y l -> f x = f y -> x = y.
Proof.
  induction l as [|a l IH]; simpl; [intros _ []|]. intros Hn Hx Hy Hf.
  rewrite NoDup_cons in Hn. destruct Hn as [Ha Hl].
  destruct Hx as [<-|Hx], Hy as [<-|Hy]; [reflexivity| | |auto].
  - exfalso. apply Ha. apply list_elem_of_In. rewrite Hf. apply in_map, Hy.
  - exfalso. apply Ha. apply list_elem_of_In. rewrite <- Hf. apply in_map, Hx.
Qed.

(** The effect of [schedule] with [reset] on a DAG with distinct, closed ids. *)
Lemma schedule_reset_effect (opts : obj) (p : string) (dag : Planner.TaskDag) (w : World) :
  NoDup (List.map Planner.id (Planner.nodes dag)) ->
  (forall n d, In n (Planner.nodes dag) -> In d (Planner.dependencies n) ->
     In d (List.map Planner.id (Planner.nodes dag))) ->
  let w' := snd (schedule opts p dag true w) in
  fst (schedule opts p dag true w) = None /\
  (forall k, k.1 <> p -> table w' !! k = table w !! k) /\
  (forall m, is_Some (table w' !! (p, m)) <-> In m (List.map Planner.id (Planner.nodes dag))) /\
  (forall n, In n (Planner.nodes dag) ->
     exists r, table w' !! (p, Planner.id n) = Some r /\
       status r = match Planner.dependencies n with [] => running | _ => pending end /\
       dependencies r = Planner.dependencies n /\
       forall x, In x (dependents r) <->
         exists e, In e (Planner.edges dag) /\ Planner.from e = Planner.id n /\ Planner.to e = x) /\
  exists J, jobs w' = List.app (jobs w) J /\ NoDup (List.map job_name J) /\
    forall nm, In nm (List.map job_name J) <->
      exists n, In n (Planner.nodes dag) /\ Planner.dependencies n = [] /\
                nm = p ++ ":" ++ Planner.id n.
Proof.
  intros Hd Hc. cbv zeta. unfold schedule. rewrite bind_eq. cbv beta iota.
  set (w0 := snd (clearProject p w)).
  set (ids := List.map Planner.id (Planner.nodes dag)) in *.
  assert (H0 : forall n, In n (Planner.nodes dag) -> table w0 !! (p, Planner.id n) = None).
  { intros n _. subst w0. rewrite clearProject_lookup.
    destruct (decide _) as [_|E]; [reflexivity|]. exfalso. apply E. reflexivity. }
  pose proof (persistDag_ok p dag w0 Hd H0) as P. cbv zeta in P.
  destruct P as [P1 [P2 [P3 [P4 P5]]]].
  rewrite bind_eq, P1. cbv beta iota. rewrite bind_eq. cbn [fst snd ret].
  set (w1 := snd (persistDag p dag w0)) in *.
  rewrite enqueueReadyTasks_unfold.
  assert (R1 : forall k, k.1 <> p -> table w1 !! k = table w !! k).
  { intros k Hk. rewrite P3 by exact Hk. subst w0. rewrite clearProject_lookup.
    destruct (decide _); [contradiction | reflexivity]. }
  assert (R2 : forall m, ~ In m ids -> table w1 !! (p, m) = None).
  { intros m Hm. apply P4.
    - subst w0. rewrite clearProject_lookup.
      destruct (decide _) as [_|E]; [reflexivity|]. exfalso. apply E. reflexivity.
    - intros n Hn Heq. injection Heq as Heq. apply Hm. rewrite Heq. apply in_map, Hn. }
  assert (R3 : forall n, In n (Planner.nodes dag) ->
            exists r, table w1 !! (p, Planner.id n) = Some r /\ status r = pending /\
              dependencies r = Planner.dependencies n /\
              forall x, In x (dependents r) <->
                exists e, In e (Planner.edges dag) /\ Planner.from e = Planner.id n /\
                          Planner.to e = x).
  { intros n Hn. destruct (P5 n Hn) as [r [Hr [[_ [S [D _]]] [_ Hx]]]].
    exists r. cbn [new_row status dependencies] in S, D. auto. }
  assert (Hready : forall m r, table w1 !! (p, m) = Some r ->
            row_ready (table w1) p (p, m) r = true <->
            exists n, In n (Planner.nodes dag) /\ Planner.id n = m /\ Planner.dependencies n = []).
  { intros m r Hr. destruct (in_dec string_dec m ids) as [Hm|Hm];
      [|rewrite R2 in Hr by exact Hm; discriminate].
    apply in_map_iff in Hm as [n [<- Hn]].
    destruct (R3 n Hn) as [r' [Hr' [Hs [Hdep _]]]]. rewrite Hr in Hr'. injection Hr' as <-.
    unfold row_ready. rewrite Hs, Hdep. cbn [fst].
    rewrite (bool_decide_true (p = p)) by reflexivity.
    rewrite (bool_decide_true (pending = pending)) by reflexivity. cbn [andb].
    split.
    - intros H. exists n. split; [exact Hn|]. split; [reflexivity|].
      destruct (Planner.dependencies n) as [|d ds] eqn:Ed; [reflexivity|]. exfalso.
      assert (Hdi : In d ids) by (apply (Hc n d Hn); rewrite Ed; left; reflexivity).
      apply in_map_iff in Hdi as [nd [Hnd Hndin]].
      destruct (R3 nd Hndin) as [rd [Hrd [Hsd _]]].
      cbn [existsb] in H. unfold dep_blocks in H. rewrite <- Hnd, Hrd, Hsd in H.
      cbn in H. discriminate.
    - intros [n' [Hn' [Hid Hnil]]].
      rewrite <- (NoDup_map_same Planner.id _ n' n Hd Hn' Hn Hid), Hnil. reflexivity. }
  set (L := fst (listReadyTasks p w1)).
  assert (HLid : forall m, In m (List.map TaskRecord.nodeId L) <->
            exists n, In n (Planner.nodes dag) /\ Planner.dependencies n = [] /\ Planner.id n = m).
  { intros m. rewrite in_map_iff. split.
    - intros [tr [Htr Hin]]. apply listReadyTasks_In in Hin as [m' [r [Hl [Hrd ->]]]].
      cbn in Htr. subst m'. apply (proj1 (Hready m r Hl)) in Hrd as [n [Hn [Hid Hnil]]].
      exists n. auto.
    - intros [n [Hn [Hnil <-]]]. destruct (R3 n Hn) as [r [Hr _]].
      exists (to_ready_record p (Planner.id n) r). split; [reflexivity|].
      apply listReadyTasks_In. exists (Planner.id n), r. split; [exact Hr|].
      split; [|reflexivity]. apply (proj2 (Hready _ r Hr)). exists n. auto. }
  destruct (forM_enqueue_effect opts p L w1) as [Ea Eb].
  pose proof (forM_enqueue_cols opts p L w1) as Ec.
  destruct (forM_enqueue_jobs opts p L w1) as [J [HJ [HN _]]].
  set (w2 := snd (forM_ L (enqueueTask opts p) w1)) in *.
  split; [reflexivity|].
  split.
  { intros k Hk. rewrite Ea by (left; exact Hk). apply R1, Hk. }
  split.
  { intros m. pose proof (Ec (p, m)) as Ecm. split.
    - intros Hs. destruct (in_dec string_dec m ids) as [Hm|Hm]; [exact Hm|]. exfalso.
      rewrite R2 in Ecm by exact Hm. destruct Hs as [r Hr]. rewrite Hr in Ecm. discriminate.
    - intros Hm. apply in_map_iff in Hm as [n [<- Hn]]. destruct (R3 n Hn) as [r [Hr _]].
      rewrite Hr in Ecm. destruct (table w2 !! (p, Planner.id n)); [eexists; reflexivity|].
      discriminate. }
  split.
  { intros n Hn. destruct (R3 n Hn) as [r1 [Hr1 [Hs1 [Hd1 Hx1]]]].
    pose proof (Ec (p, Planner.id n)) as Ecn. rewrite Hr1 in Ecn.
    destruct (table w2 !! (p, Planner.id n)) as [r2|] eqn:E2; [|discriminate].
    cbn in Ecn. injection Ecn as Ht Hdp Hdn. exists r2. split; [reflexivity|].
    split; [|split; [congruence | intros x; rewrite Hdn; apply Hx1]].
    destruct (Planner.dependencies n) as [|d ds] eqn:Ed.
    - assert (Hin : In (Planner.id n) (List.map TaskRecord.nodeId L))
        by (apply HLid; exists n; auto).
      pose proof (Eb (p, Planner.id n) eq_refl Hin) as Hst. rewrite E2, Hr1 in Hst.
      cbn in Hst. injection Hst as Hst. exact Hst.
    - assert (Hnot : ~ In (Planner.id n) (List.map TaskRecord.nodeId L)).
      { intros Hin. apply HLid in Hin as [n' [Hn' [Hnil Hid]]].
        rewrite (NoDup_map_same Planner.id _ n' n Hd Hn' Hn Hid) in Hnil.
        rewrite Ed in Hnil. discriminate. }
      pose proof (Ea (p, Planner.id n) (or_intror Hnot)) as Hsame.
      rewrite E2, Hr1 in Hsame. injection Hsame as <-. exact Hs1. }
  exists J. split; [rewrite HJ, P2; reflexivity|]. split.
  - rewrite HN, <- (map_map TaskRecord.nodeId (fun m => p ++ ":" ++ m)).
    apply NoDup_map_inj; [|apply listReadyTasks_NoDup].
    intros x y Hxy. apply PlannerFacts.append_cancel_l in Hxy.
    apply (PlannerFacts.append_cancel_l ":") in Hxy. exact Hxy.
  - intros nm. rewrite HN, in_map_iff. split.
    + intros [tr [<- Htr]].
      assert (Hin : In (TaskRecord.nodeId tr) (List.map TaskRecord.nodeId L))
        by (apply in_map, Htr).
      apply HLid in Hin as [n [Hn [Hnil Hid]]]. exists n. rewrite Hid. auto.
    + intros [n [Hn [Hnil ->]]].
      assert (Hin : In (Planner.id n) (List.map TaskRecord.nodeId L))
        by (apply HLid; exists n; auto).
      apply in_map_iff in Hin as [tr [Htr Hin]]. exists tr. rewrite Htr. auto.
Qed.

(** [schedule] with [reset] of a DAG whose node ids are distinct and whose
    dependency ids all name nodes of the DAG: it succeeds; the project's rows
    are exactly the DAG's nodes, each with its dependencies and the targets of
    its outgoing edges as dependents; the nodes without dependencies are
    dispatched ([running], one job each, named [<project>:<node>]) and all
    others wait ([pending]); rows of other projects are untouched. *)
Theorem schedule_dispatches_roots (opts : obj) (p : string) (dag : Planner.TaskDag) (w : World) :
  NoDup (List.map Planner.id (Planner.nodes dag)) ->
  (forall n d, In n (Planner.nodes dag) -> In d (Planner.dependencies n) ->
     In d (List.map Planner.id (Planner.nodes dag))) ->
  let w' := snd (schedule opts p dag true w) in
  fst (schedule opts p dag true w) = None /\
  (forall k, k.1 <> p -> table w' !! k = table w !! k) /\
  (forall m, is_Some (table w' !! (p, m)) <-> In m (List.map Planner.id (Planner.nodes dag))) /\
  (forall n, In n (Planner.nodes dag) ->
     exists r, table w' !! (p, Planner.id n) = Some r /\
       status r = match Planner.dependencies n with [] => running | _ => pending end /\
       dependencies r = Planner.dependencies n /\
       forall x, In x (dependents r) <->
         exists e, In e (Planner.edges dag) /\ Planner.from e = Planner.id n /\ Planner.to e = x) /\
  exists J, jobs w' = List.app (jobs w) J /\ NoDup (List.map job_name J) /\
    forall nm, In nm (List.map job_name J) <->
      exists n, In n (Planner.nodes dag) /\ Planner.dependencies n = [] /\
                nm = p ++ ":" ++ Planner.id n.
Proof. exact (schedule_reset_effect opts p dag w). Qed.

(** [schedule] without [reset] of a DAG whose ids repeat or are already
    stored for the project: it reports the insert error and changes nothing,
    neither a row nor the job queue; no ready task is enqueued. *)
Theorem schedule_keep_rejects_taken_ids (opts : obj) (p : string) (dag : Planner.TaskDag) (w : World) :
  (~ NoDup (List.map Planner.id (Planner.nodes dag)) \/
   exists n, In n (Planner.nodes dag) /\ table w !! (p, Planner.id n) <> None) ->
  schedule opts p dag false w = (Some ("保存任务图失败: " ++ pkey_violation), w).
Proof.
  intros H. unfold schedule. rewrite bind_eq. cbn [fst snd ret].
  rewrite bind_eq, persistDag_fail by exact H. reflexivity.
Qed.

(** A decision procedure for the closedness of a DAG's dependencies. *)
Definition deps_closed_b (dag : Planner.TaskDag) : bool :=
  forallb (fun n => forallb (fun d => existsb (String.eqb d) (List.map Planner.id (Planner.nodes dag)))
                            (Planner.dependencies n))
          (Planner.nodes dag).

Lemma deps_closed_b_spec dag :
  deps_closed_b dag = true ->
  forall n d, In n (Planner.nodes dag) -> In d (Planner.dependencies n) ->
    In d (List.map Planner.id (Planner.nodes dag)).
Proof.
  unfold deps_closed_b. rewrite forallb_forall. intros H n d Hn Hdn.
  specialize (H n Hn). rewrite forallb_forall in H. apply existsb_eqb_In, H, Hdn.
Qed.

Lemma addDependent_adds_once_witness :
  let w' := snd (addDependent "p" "prepare:1" "verify:1" DispatcherSamples.chain_world) in
  (exists r', table w' !! ("p", "prepare:1") = Some r' /\
     forall x, In x (dependents r') <-> x = "write:1" \/ x = "verify:1").
Proof.
  cbv zeta.
  destruct (addDependent_adds_once "p" "prepare:1" "verify:1" DispatcherSamples.chain_world
              (DispatcherSamples.row Planner.prepare completed [] ["write:1"]))
    as [[r' [Hr' [_ [_ Hx]]]] _].
  - vm_compute. reflexivity.
  - apply NoDup_singleton.
  - exists r'. split; [exact Hr'|]. intros x. rewrite Hx. cbn [dependents DispatcherSamples.row].
    split.
    + intros [[Hw|Hf]|Hv]; [left; symmetry; exact Hw | destruct Hf | right; exact Hv].
    + intros [Hw|Hv]; [left; left; symmetry; exact Hw | right; exact Hv].
Defined.

Lemma persistDag_rejects_taken_ids_witness :
  persistDag "p" (Planner.buildDag PlannerSamples.fixed_ctx) DispatcherSamples.chain_world =
  (Some ("保存任务图失败: " ++ pkey_violation), DispatcherSamples.chain_world).
Proof.
  apply persistDag_rejects_taken_ids. right.
  exists (nth 1 (Planner.nodes (Planner.buildDag PlannerSamples.fixed_ctx)) (Planner.finalAssembleNode [])).
  split; [apply nth_In; vm_compute; lia | vm_compute; discriminate].
Defined.

Lemma persistDag_writes_dag_witness :
  fst (persistDag "p" (Planner.buildDag PlannerSamples.fixed_ctx) DispatcherSamples.empty_world) = None.
Proof.
  apply (persistDag_writes_dag "p" (Planner.buildDag PlannerSamples.fixed_ctx)
           DispatcherSamples.empty_world).
  - apply (bool_decide_unpack _). vm_compute. reflexivity.
  - intros n _. reflexivity.
Defined.

Lemma schedule_dispatches_roots_witness :
  fst (schedule ∅ "p" (Planner.buildDag PlannerSamples.fixed_ctx) true DispatcherSamples.chain_world)
  = None.
Proof.
  apply (schedule_dispatches_roots ∅ "p" (Planner.buildDag PlannerSamples.fixed_ctx)
           DispatcherSamples.chain_world).
  - apply (bool_decide_unpack _). vm_compute. reflexivity.
  - apply deps_closed_b_spec. vm_compute. reflexivity.
Defined.

Lemma schedule_keep_rejects_taken_ids_witness :
  schedule ∅ "p" (Planner.buildDag PlannerSamples.fixed_ctx) false DispatcherSamples.chain_world =
  (Some ("保存任务图失败: " ++ pkey_violation), DispatcherSamples.chain_world).
Proof.
  apply schedule_keep_rejects_taken_ids. right.
  exists (nth 1 (Planner.nodes (Planner.buildDag PlannerSamples.fixed_ctx)) (Planner.finalAssembleNode [])).
  split; [apply nth_In; vm_compute; lia | vm_compute; discriminate].
Defined.

End StoreOpsFacts.

(* ------------------------------------------------------------------ *)
(** ** Well-formedness of the planned DAG *)

Module PlannerWellFormed.
Import Planner PlannerFacts PlannerShape.

Lemma addNode_NoDup ns m : NoDup (List.map id ns) -> NoDup (List.map id (addNode ns m)).
Proof.
  intros H. unfold addNode. destruct (existsb _ _) eqn:E; [exact H|].
  rewrite map_app. apply NoDup_app. split_and!; [exact H| |apply NoDup_singleton].
  intros x Hx Hx'. apply list_elem_of_In in Hx, Hx'. destruct Hx' as [<-|[]].
  assert (Ht : existsb (String.eqb (id m)) (List.map id ns) = true).
  { apply existsb_exists. exists (id m). split; [exact Hx | apply String.eqb_refl]. }
  congruence.
Qed.

Lemma add_all_NoDup l ns : NoDup (List.map id ns) -> NoDup (List.map id (List.fold_left addNode l ns)).
Proof.
  revert ns. induction l as [|a l IH]; simpl; intros ns H; [exact H|].
  apply IH, addNode_NoDup, H.
Qed.

Lemma loop_NoDup ctx hE hT es st :
  NoDup (List.map id (fst st)) -> NoDup (List.map id (fst (loop ctx hE hT es st))).
Proof.
  unfold loop. revert st. induction es as [|e es IH]; simpl; intros st H; [exact H|].
  apply IH. unfold plan_step. simpl. apply add_all_NoDup, H.
Qed.

Lemma buildDag_ids_NoDup ctx : NoDup (List.map id (nodes (buildDag ctx))).
Proof.
  destruct (buildDag_spec ctx) as [Hn _]. rewrite Hn.
  assert (HL : NoDup (List.map id (fst (loop ctx (existsb AssetRegistry.embed_ready (assetsIndex ctx))
                 (existsb AssetRegistry.table_ready (assetsIndex ctx))
                 (flattenOutline (outline ctx)) ([], [])))))
    by (apply loop_NoDup; constructor).
  destruct (List.filter _ _); [exact HL | apply addNode_NoDup, HL].
Qed.

(** [deps_before seen l]: every dependency of a node of [l] is in [seen] or
    is the id of a node placed before it in [l]. *)
Fixpoint deps_before (seen : list string) (l : list TaskNode) : Prop :=
  match l with
  | [] => True
  | m :: l' => (forall d, In d (dependencies m) -> In d seen) /\ deps_before (id m :: seen) l'
  end.

Lemma deps_before_weaken l : forall s s',
  (forall x, In x s -> In x s') -> deps_before s l -> deps_before s' l.
Proof.
  induction l as [|a l IH]; simpl; [auto|]. intros s s' Hs [H1 H2].
  split; [auto|]. apply (IH (id a :: s)); [|exact H2].
  intros x [<-|Hx]; [left; reflexivity | right; auto].
Qed.

Lemma deps_before_snoc l : forall s m,
  deps_before s l -> (forall d, In d (dependencies m) -> In d s \/ In d (List.map id l)) ->
  deps_before s (List.app l [m]).
Proof.
  induction l as [|a l IH]; simpl; intros s m H Hm.
  - split; [|exact I]. intros d Hd. destruct (Hm d Hd) as [Hs|[]]. exact Hs.
  - destruct H as [H1 H2]. split; [exact H1|]. apply IH; [exact H2|].
    intros d Hd. destruct (Hm d Hd) as [Hs|[<-|Hl]].
    + left. right. exact Hs.
    + left. left. reflexivity.
    + right. exact Hl.
Qed.

Lemma deps_before_split pre : forall s n post,
  deps_before s (List.app pre (n :: post)) ->
  forall d, In d (dependencies n) -> In d s \/ In d (List.map id pre).
Proof.
  induction pre as [|a pre IH]; simpl; intros s n post [H1 H2] d Hd.
  - left. exact (H1 d Hd).
  - destruct (IH _ _ _ H2 d Hd) as [[<-|Hs]|Hp].
    + right. left. reflexivity.
    + left. exact Hs.
    + right. right. exact Hp.
Qed.

Lemma add_all_topo l : forall ns S,
  deps_before [] ns -> deps_before S l -> (forall x, In x S -> In x (List.map id ns)) ->
  deps_before [] (List.fold_left addNode l ns).
Proof.
  induction l as [|a l IH]; simpl; intros ns S Hns Hl HS; [exact Hns|].
  destruct Hl as [Ha Hl]. apply (IH _ (id a :: S)); [| exact Hl |].
  - unfold addNode. destruct (existsb _ _); [exact Hns|].
    apply deps_before_snoc; [exact Hns|]. intros d Hd. right. apply HS, Ha, Hd.
  - intros x [<-|Hx]; [apply addNode_id|]. apply (add_all_mono_id [a]), HS, Hx.
Qed.

Lemma plan_entry_topo ctx hE hT e : deps_before [] (fst (plan_entry ctx hE hT e)).
Proof.
  unfold plan_entry. cbv zeta.
  destruct (truthy _); [|destruct (hE || hT)]; simpl; split_and!; try exact I;
    intros d Hd; simpl in Hd; repeat destruct Hd as [<-|Hd]; try contradiction;
    simpl; intuition.
Qed.

Lemma loop_topo ctx hE hT es st :
  deps_before [] (fst st) -> deps_before [] (fst (loop ctx hE hT es st)).
Proof.
  unfold loop. revert st. induction es as [|e es IH]; simpl; intros st H; [exact H|].
  apply IH. unfold plan_step. simpl.
  apply (add_all_topo _ _ []); [exact H | apply plan_entry_topo | intros x []].
Qed.

Lemma buildDag_topo ctx : deps_before [] (nodes (buildDag ctx)).
Proof.
  destruct (buildDag_spec ctx) as [Hn _]. rewrite Hn.
  set (L := loop _ _ _ _ _).
  assert (HL : deps_before [] (fst L)) by (apply loop_topo; exact I).
  destruct (List.filter is_assemble (fst L)) as [|a A] eqn:HA; [exact HL|].
  unfold addNode. destruct (existsb (String.eqb _) _); [exact HL|].
  apply deps_before_snoc; [exact HL|]. intros d Hd. right.
  cbn [finalAssembleNode dependencies] in Hd. rewrite <- HA in Hd.
  apply in_map_iff in Hd as [m [<- Hm]]. apply filter_In in Hm as [Hm _]. apply in_map, Hm.
Qed.

Lemma buildDag_closed ctx n d :
  In n (nodes (buildDag ctx)) -> In d (dependencies n) -> In d (List.map id (nodes (buildDag ctx))).
Proof.
  intros Hn Hd. destruct (in_split _ _ Hn) as [pre [post Heq]].
  pose proof (buildDag_topo ctx) as T. rewrite Heq in T |- *.
  destruct (deps_before_split pre [] n post T d Hd) as [[]|Hp].
  rewrite map_app. apply in_or_app. left. exact Hp.
Qed.

(** [has_edge_for es n]: each dependency of [n] is the source of an edge to [n]. *)
Definition has_edge_for (es : list TaskEdge) (n : TaskNode) : Prop :=
  forall d, In d (dependencies n) -> exists e, In e es /\ from e = d /\ to e = id n.

Lemma has_edge_mono es es' n :
  (forall e, In e es -> In e es') -> has_edge_for es n -> has_edge_for es' n.
Proof.
  intros Hs H d Hd. destruct (H d Hd) as [e [He Hft]]. exists e. split; [apply Hs, He | exact Hft].
Qed.

Lemma plan_entry_edges ctx hE hT e m :
  In m (fst (plan_entry ctx hE hT e)) -> has_edge_for (snd (plan_entry ctx hE hT e)) m.
Proof.
  unfold has_edge_for. intros Hm d Hd. apply List.Exists_exists. revert Hm Hd.
  unfold plan_entry. cbv zeta.
  destruct (truthy _); [|destruct (hE || hT)]; simpl; intros Hm;
    repeat destruct Hm as [<-|Hm]; try contradiction;
    intros Hd; simpl in Hd; repeat destruct Hd as [<-|Hd]; try contradiction;
    repeat (first [left; simpl; split; reflexivity | right]).
Qed.

Lemma loop_has_edges ctx hE hT es st :
  (forall n, In n (fst st) -> has_edge_for (snd st) n) ->
  forall n, In n (fst (loop ctx hE hT es st)) -> has_edge_for (snd (loop ctx hE hT es st)) n.
Proof.
  intros Hst n Hn. rewrite loop_edges.
  apply loop_In in Hn as [Hn|[e [He Hn]]].
  - eapply has_edge_mono; [|apply Hst, Hn]. intros ed Hed. apply in_or_app. left. exact Hed.
  - eapply has_edge_mono; [|eapply plan_entry_edges, Hn].
    intros ed Hed. apply in_or_app. right. apply in_flat_map. eauto.
Qed.

Lemma buildDag_has_edges ctx n : In n (nodes (buildDag ctx)) -> has_edge_for (edges (buildDag ctx)) n.
Proof.
  destruct (buildDag_spec ctx) as [Hn He]. rewrite Hn, He. clear Hn He.
  set (L := loop _ _ _ _ _).
  assert (HL : forall m, In m (fst L) -> has_edge_for (snd L) m)
    by (apply loop_has_edges; intros m []).
  destruct (List.filter is_assemble (fst L)) as [|a A] eqn:HA; [apply HL|].
  intros H. apply addNode_In in H as [H| ->].
  - eapply has_edge_mono; [|apply HL, H]. intros ed Hed. apply in_or_app. left. exact Hed.
  - intros d Hd. cbn [finalAssembleNode dependencies] in Hd.
    apply in_map_iff in Hd as [m [<- Hm]].
    exists {| from := id m; to := finalAssembleId; reason := Some "章节合并" |}.
    split; [|split; reflexivity].
    apply in_or_app. right. apply (in_map (fun n => {| from := id n; to := finalAssembleId;
                                                       reason := Some "章节合并" |})), Hm.
Qed.

Lemma buildSummary_partition ns :
  byType (buildSummary ns) materialize_fixed + byType (buildSummary ns) prepare +
  byType (buildSummary ns) retrieve + byType (buildSummary ns) write +
  byType (buildSummary ns) verify + byType (buildSummary ns) assemble = length ns.
Proof.
  induction ns as [|a ns IH]; [reflexivity|]. revert IH. cbn [buildSummary byType length List.filter].
  destruct (type a); repeat case_bool_decide; cbn [length]; try congruence; lia.
Qed.

Lemma buildDag_summary ctx : summary (buildDag ctx) = buildSummary (nodes (buildDag ctx)).
Proof.
  unfold buildDag. cbv zeta. destruct (List.fold_left _ _ _) as [ns es].
  destruct (List.filter is_assemble ns); reflexivity.
Qed.

(** [buildDag] never yields two nodes with the same id, whatever the outline:
    [addNode] skips an id already in the index, also for the document sink. *)
Theorem buildDag_ids_distinct (ctx : PlannerContext) :
  NoDup (List.map id (nodes (buildDag ctx))).
Proof. exact (buildDag_ids_NoDup ctx). Qed.

(** The node list of [buildDag] is in dependency order, whatever the outline:
    each dependency of a node is the id of a node placed before it.  So every
    dependency names a node of the DAG and the dependencies have no cycle. *)
Theorem buildDag_dependencies_precede (ctx : PlannerContext) (pre post : list TaskNode) (n : TaskNode) :
  nodes (buildDag ctx) = List.app pre (n :: post) ->
  forall d, In d (dependencies n) -> In d (List.map id pre).
Proof.
  intros H d Hd. pose proof (buildDag_topo ctx) as T. rewrite H in T.
  destruct (deps_before_split pre [] n post T d Hd) as [[]|Hp]. exact Hp.
Qed.

(** Each dependency [d] of a node [n] of [buildDag] comes with an edge from
    [d] to [n], whatever the outline. *)
Theorem buildDag_dependency_edges (ctx : PlannerContext) (n : TaskNode) (d : string) :
  In n (nodes (buildDag ctx)) -> In d (dependencies n) ->
  exists e, In e (edges (buildDag ctx)) /\ from e = d /\ to e = id n.
Proof. intros Hn Hd. exact (buildDag_has_edges ctx n Hn d Hd). Qed.

(** The summary of [buildDag] counts every node once under its type: the six
    [byType] counters add up to [total], the number of nodes. *)
Theorem buildDag_summary_counts (ctx : PlannerContext) :
  let s := summary (buildDag ctx) in
  byType s materialize_fixed + byType s prepare + byType s retrieve + byType s write +
  byType s verify + byType s assemble = total s /\
  total s = length (nodes (buildDag ctx)).
Proof.
  cbv zeta. rewrite buildDag_summary. split; [apply buildSummary_partition | reflexivity].
Qed.

Lemma buildDag_dependencies_precede_witness :
  In "prepare:2" (List.map id (firstn 3 (nodes (buildDag PlannerSamples.fixed_ctx)))).
Proof.
  apply (buildDag_dependencies_precede PlannerSamples.fixed_ctx
           (firstn 3 (nodes (buildDag PlannerSamples.fixed_ctx)))
           (skipn 4 (nodes (buildDag PlannerSamples.fixed_ctx)))
           (nth 3 (nodes (buildDag PlannerSamples.fixed_ctx)) (finalAssembleNode []))).
  - vm_compute. reflexivity.
  - vm_compute. left. reflexivity.
Defined.

Lemma buildDag_dependency_edges_witness :
  exists e, In e (edges (buildDag PlannerSamples.fixed_ctx)) /\
            from e = "prepare:2" /\ to e = "write:2".
Proof.
  destruct (buildDag_dependency_edges PlannerSamples.fixed_ctx
              (nth 3 (nodes (buildDag PlannerSamples.fixed_ctx)) (finalAssembleNode []))
              "prepare:2") as [e [He [Hf Ht]]].
  - apply nth_In. vm_compute. lia.
  - vm_compute. left. reflexivity.
  - exists e. split; [exact He|]. split; [exact Hf|]. rewrite Ht. vm_compute. reflexivity.
Defined.

End PlannerWellFormed.

(* ------------------------------------------------------------------ *)
(** ** Scheduling a planned DAG *)

Module PlanSchedule.
Import TaskState Dispatcher StoreOps StoreOpsFacts PlannerWellFormed.

(** [schedule] with [reset] of any DAG [buildDag] plans: it never fails, the
    nodes without dependencies are dispatched ([running], one job each, named
    [<project>:<node>]) and every other node waits ([pending]). *)
Theorem schedule_plan_dispatches_roots (opts : obj) (p : string) (ctx : Planner.PlannerContext)
    (w : World) :
  let dag := Planner.buildDag ctx in
  let w' := snd (schedule opts p dag true w) in
  fst (schedule opts p dag true w) = None /\
  (forall n, In n (Planner.nodes dag) ->
     exists r, table w' !! (p, Planner.id n) = Some r /\
       status r = match Planner.dependencies n with [] => running | _ => pending end) /\
  exists J, jobs w' = List.app (jobs w) J /\ NoDup (List.map job_name J) /\
    forall nm, In nm (List.map job_name J) <->
      exists n, In n (Planner.nodes dag) /\ Planner.dependencies n = [] /\
                nm = p ++ ":" ++ Planner.id n.
Proof.
  cbv zeta.
  pose proof (schedule_reset_effect opts p (Planner.buildDag ctx) w
                (buildDag_ids_NoDup ctx) (buildDag_closed ctx)) as H.
  cbv zeta in H. destruct H as [H1 [_ [_ [H4 H5]]]].
  split; [exact H1|]. split; [|exact H5].
  intros n Hn. destruct (H4 n Hn) as [r [Hr [Hs _]]]. eauto.
Qed.

End PlanSchedule.

(* ------------------------------------------------------------------ *)
(** ** [enqueueReadyTasks] *)

Module EnqueueFacts.
Import TaskState Dispatcher StoreFacts DispatcherClaims StoreOpsFacts.

(** [enqueueReadyTasks] dispatches exactly the tasks [listReadyTasks] returns
    when it starts: each gets one job, named [<project>:<node>] on the queue of
    its type, and its row becomes [running]; every other row is left as it
    was, and afterwards no task of the project is ready. *)
Theorem enqueueReadyTasks_dispatches_ready (opts : obj) (p : string) (w : World) :
  let L := fst (listReadyTasks p w) in
  let w' := snd (enqueueReadyTasks opts p w) in
  fst (listReadyTasks p w') = [] /\
  (forall tr, In tr L ->
     exists r, table w' !! (p, TaskRecord.nodeId tr) = Some r /\ status r = running) /\
  (forall k, (k.1 <> p \/ ~ In k.2 (List.map TaskRecord.nodeId L)) -> table w' !! k = table w !! k) /\
  exists J, jobs w' = List.app (jobs w) J /\
    List.map job_name J = List.map (fun tr => p ++ ":" ++ TaskRecord.nodeId tr) L /\
    List.map job_queue J = List.map (fun tr => resolveQueue (TaskRecord.type tr)) L.
Proof.
  cbv zeta. split; [apply enqueueReadyTasks_clears|].
  rewrite enqueueReadyTasks_unfold.
  set (L := fst (listReadyTasks p w)).
  destruct (forM_enqueue_effect opts p L w) as [Ea Eb].
  split; [|split; [exact Ea | apply forM_enqueue_jobs]].
  intros tr Htr.
  pose proof (in_map TaskRecord.nodeId _ _ Htr) as Hin.
  apply listReadyTasks_In in Htr as [n [r [Hl [_ ->]]]].
  change (TaskRecord.nodeId (to_ready_record p n r)) with n in Hin |- *.
  pose proof (Eb (p, n) eq_refl Hin) as Hs. rewrite Hl in Hs.
  destruct (table (snd (forM_ L (enqueueTask opts p) w)) !! (p, n)) as [r'|]; [|discriminate].
  exists r'. split; [reflexivity|]. cbn in Hs. injection Hs as Hs. exact Hs.
Qed.

(** Calling [enqueueReadyTasks] again right after it changes nothing: no
    task is enqueued twice. *)
Theorem enqueueReadyTasks_twice (opts : obj) (p : string) (w : World) :
  snd (enqueueReadyTasks opts p (snd (enqueueReadyTasks opts p w))) = snd (enqueueReadyTasks opts p w).
Proof. apply enqueueReadyTasks_none, enqueueReadyTasks_clears. Qed.

End EnqueueFacts.

(* ------------------------------------------------------------------ *)
(** ** [flattenOutline] *)

Module OutlineFacts.
Import Planner.

(** Induction on outline trees, through the [outline_structure] lists. *)
Fixpoint OutlineNode_nested_ind (P : OutlineNode -> Prop)
    (H : forall ch t gs gp fc es os,
           match os with Some l => Forall P l | None => True end ->
           P (mkOutlineNode ch t gs gp fc es os))
    (n : OutlineNode) : P n :=
  match n with
  | mkOutlineNode ch t gs gp fc es os =>
      H ch t gs gp fc es os
        (match os as o return match o with Some l => Forall P l | None => True end with
         | Some l =>
             (fix F (l : list OutlineNode) : Forall P l :=
                match l with
                | [] => @List.Forall_nil _ P
                | k :: r => @List.Forall_cons _ P k r (OutlineNode_nested_ind P H k) (F r)
                end) l
         | None => I
         end)
  end.

Lemma walk_node_eq n parent :
  walk_node n parent =
  {| node := n; parentId := parent |} ::
  match outline_structure n with
  | Some kids => List.flat_map (fun k => walk_node k (chapter_number n)) kids
  | None => []
  end.
Proof.
  destruct n as [ch t gs gp fc es [kids|]]; [|reflexivity].
  reflexivity.
Qed.

Lemma walk_node_children n : forall parent e kids k,
  In e (walk_node n parent) -> outline_structure (node e) = Some kids -> In k kids ->
  In {| node := k; parentId := chapter_number (node e) |} (walk_node n parent).
Proof.
  induction n as [ch t gs gp fc es os IH] using OutlineNode_nested_ind.
  intros parent e kids k He Hk Hin. rewrite walk_node_eq in He |- *.
  destruct He as [<-|He].
  - cbn in Hk |- *. subst os. right. apply in_flat_map. exists k. split; [exact Hin|].
    rewrite walk_node_eq. left. reflexivity.
  - right. cbn in He |- *. destruct os as [l|]; [|contradiction].
    apply in_flat_map in He as [k' [Hk' He]]. apply in_flat_map. exists k'. split; [exact Hk'|].
    rewrite List.Forall_forall in IH. eapply IH; eassumption.
Qed.

Lemma walk_node_origin n : forall parent e,
  In e (walk_node n parent) ->
  e = {| node := n; parentId := parent |} \/
  exists e' kids, In e' (walk_node n parent) /\ outline_structure (node e') = Some kids /\
    In (node e) kids /\ parentId e = chapter_number (node e').
Proof.
  induction n as [ch t gs gp fc es os IH] using OutlineNode_nested_ind.
  intros parent e He. rewrite walk_node_eq in He.
  destruct He as [<-|He]; [left; reflexivity|]. right.
  cbn in He. destruct os as [l|]; [|contradiction].
  apply in_flat_map in He as [k [Hk He]]. rewrite List.Forall_forall in IH.
  destruct (IH k Hk _ _ He) as [->|[e' [kids [He' [Hs [Hin Hp]]]]]].
  - exists {| node := mkOutlineNode ch t gs gp fc es (Some l); parentId := parent |}, l.
    split; [rewrite walk_node_eq; left; reflexivity|]. cbn. auto.
  - exists e', kids. split; [|auto].
    rewrite walk_node_eq. right. cbn. apply in_flat_map. eauto.
Qed.

(** [flattenOutline] lists exactly the outline tree: each top-level node with
    no parent; with each listed node, every node of its [outline_structure]
    with the listed node's chapter number as parent; and nothing else. *)
Theorem flattenOutline_lists_tree (o : list OutlineNode) :
  (forall n, In n o -> In {| node := n; parentId := None |} (flattenOutline o)) /\
  (forall e kids k, In e (flattenOutline o) -> outline_structure (node e) = Some kids -> In k kids ->
     In {| node := k; parentId := chapter_number (node e) |} (flattenOutline o)) /\
  (forall e, In e (flattenOutline o) ->
     (In (node e) o /\ parentId e = None) \/
     exists e' kids, In e' (flattenOutline o) /\ outline_structure (node e') = Some kids /\
       In (node e) kids /\ parentId e = chapter_number (node e')).
Proof.
  unfold flattenOutline, walk. split; [|split].
  - intros n Hn. apply in_flat_map. exists n. split; [exact Hn|].
    rewrite walk_node_eq. left. reflexivity.
  - intros e kids k He Hk Hin. apply in_flat_map in He as [n [Hn He]].
    apply in_flat_map. exists n. split; [exact Hn|]. eapply walk_node_children; eassumption.
  - intros e He. apply in_flat_map in He as [n [Hn He]].
    destruct (walk_node_origin n None e He) as [->|[e' [kids [He' Hrest]]]].
    + left. split; [exact Hn | reflexivity].
    + right. exists e', kids. split; [|exact Hrest]. apply in_flat_map. eauto.
Qed.

End OutlineFacts.

(* ------------------------------------------------------------------ *)
(** ** Store reads and stale worker events *)

Module DispatcherEdges.
Import TaskState Dispatcher StoreFacts DispatcherClaims StoreOpsFacts.

Lemma updateStatus_missing p n st meta w :
  table w !! (p, n) = None -> table (snd (updateStatus p n st meta w)) = table w.
Proof.
  intros H. apply map_eq. intros k. rewrite updateStatus_lookup.
  destruct (decide (k = (p, n))) as [->|Hk]; [rewrite H; reflexivity|].
  rewrite bool_decide_false by exact Hk. destruct (table w !! k); reflexivity.
Qed.

Lemma blockDependents_missing p n w :
  table w !! (p, n) = None -> blockDependentsOnFailure p n w = (tt, w).
Proof. intros H. unfold blockDependentsOnFailure. rewrite bind_eq. cbn [getTask fst snd]. rewrite H. reflexivity. Qed.

Lemma fail_missing p n meta w :
  table w !! (p, n) = None ->
  (let! _ := updateStatus p n failed meta in blockDependentsOnFailure p n) w =
  (tt, snd (updateStatus p n failed meta w)).
Proof.
  intros H. rewrite bind_eq, blockDependents_missing; [reflexivity|].
  rewrite updateStatus_missing by exact H. exact H.
Qed.

(** [getTasks] changes nothing and returns, once each, the records of the
    project's rows whose node id is listed; an id without a row is skipped and
    an empty list of ids gives no record. *)
Theorem getTasks_rows_of_ids (p : string) (ids : list string) (w : World) :
  snd (getTasks p ids w) = w /\
  NoDup (List.map TaskRecord.nodeId (fst (getTasks p ids w))) /\
  forall tr, In tr (fst (getTasks p ids w)) <->
    exists n r, In n ids /\ table w !! (p, n) = Some r /\ tr = to_record p n r.
Proof.
  destruct ids as [|i is].
  - cbn. split; [reflexivity|]. split; [constructor|].
    intros tr. split; [intros []|intros (n & r & [] & _)].
  - unfold getTasks. cbv beta iota. cbn [fst snd]. split; [reflexivity|]. split.
    + rewrite map_map. apply (NoDup_second p).
      * rewrite <- fmap_List_map. apply NoDup_fst_map_to_list.
      * intros kr H. apply andb_true_iff in H as [H _]. exact (bool_decide_eq_true_1 _ H).
    + intros tr. rewrite in_map_iff. split.
      * intros [[[p' n] r] [Heq Hin]]. apply filter_In in Hin as [Hin Hr].
        apply list_elem_of_In, elem_of_map_to_list in Hin. cbn [fst snd] in Hr, Heq.
        apply andb_true_iff in Hr as [Hp Hn]. apply bool_decide_eq_true_1 in Hp. subst p'.
        exists n, r. split; [apply existsb_eqb_In, Hn|]. split; [exact Hin | symmetry; exact Heq].
      * intros [n [r [Hin [Hl ->]]]]. exists ((p, n), r). split; [reflexivity|].
        apply filter_In. split; [apply list_elem_of_In, elem_of_map_to_list, Hl|].
        cbn [fst snd]. rewrite bool_decide_true by reflexivity. cbn [andb].
        apply existsb_eqb_In, Hin.
Qed.

(** A progress event that reports a retry, or an autofix progress event that
    does not report a failure, is ignored: nothing changes. *)
Theorem handleWorkerProgress_ignored (ev : WorkerProgressEvent.t) (w : World) :
  (WorkerProgressEvent.status ev = p_retrying \/
   (WorkerProgressEvent.type ev = autofix /\ WorkerProgressEvent.status ev <> p_failed)) ->
  handleWorkerProgress ev w = (tt, w).
Proof.
  destruct ev as [p n ty st er]. cbn [WorkerProgressEvent.status WorkerProgressEvent.type].
  intros H. unfold handleWorkerProgress. cbv zeta.
  cbn [WorkerProgressEvent.status WorkerProgressEvent.type].
  destruct ty, st; try reflexivity;
    destruct H as [H|[H1 H2]]; try discriminate; exfalso; apply H2; reflexivity.
Qed.

(** A progress event for a node that has no row (a deleted or unknown task)
    writes no row and enqueues no job, whatever status it reports. *)
Theorem handleWorkerProgress_missing_row (ev : WorkerProgressEvent.t) (w : World) :
  table w !! (WorkerProgressEvent.projectId ev, WorkerProgressEvent.nodeId ev) = None ->
  table (snd (handleWorkerProgress ev w)) = table w /\
  jobs (snd (handleWorkerProgress ev w)) = jobs w.
Proof.
  destruct ev as [p n ty st er]. cbn [WorkerProgressEvent.projectId WorkerProgressEvent.nodeId].
  intros H. unfold handleWorkerProgress. cbv zeta.
  cbn [WorkerProgressEvent.status WorkerProgressEvent.type WorkerProgressEvent.projectId
       WorkerProgressEvent.nodeId WorkerProgressEvent.error].
  destruct ty, st; try (split; reflexivity).
  - split; [apply updateStatus_missing, H | apply updateStatus_jobs].
  - rewrite fail_missing by exact H. cbn [snd].
    split; [apply updateStatus_missing, H | apply updateStatus_jobs].
  - unfold handleAutofixFailure. cbv zeta.
    cbn [WorkerResultEvent.projectId WorkerResultEvent.nodeId WorkerResultEvent.error].
    rewrite fail_missing by exact H. cbn [snd].
    split; [apply updateStatus_missing, H | apply updateStatus_jobs].
Qed.

(** A worker result that carries an error, for a node that has no row,
    writes no row and enqueues no job. *)
Theorem handleWorkerResult_error_missing_row (opts : obj) (ev : WorkerResultEvent.t) (w : World) :
  err_truthy (WorkerResultEvent.error ev) = true ->
  table w !! (WorkerResultEvent.projectId ev, WorkerResultEvent.nodeId ev) = None ->
  table (snd (handleWorkerResult opts ev w)) = table w /\
  jobs (snd (handleWorkerResult opts ev w)) = jobs w.
Proof.
  destruct ev as [p n ty res er].
  cbn [WorkerResultEvent.projectId WorkerResultEvent.nodeId WorkerResultEvent.error].
  intros He H. unfold handleWorkerResult. cbv zeta.
  cbn [WorkerResultEvent.type WorkerResultEvent.projectId WorkerResultEvent.nodeId
       WorkerResultEvent.error].
  rewrite He. destruct ty.
  - rewrite fail_missing by exact H. cbn [snd].
    split; [apply updateStatus_missing, H | apply updateStatus_jobs].
  - unfold handleAutofixFailure. cbv zeta.
    cbn [WorkerResultEvent.projectId WorkerResultEvent.nodeId WorkerResultEvent.error].
    rewrite fail_missing by exact H. cbn [snd].
    split; [apply updateStatus_missing, H | apply updateStatus_jobs].
Qed.

Lemma handleWorkerProgress_ignored_witness :
  handleWorkerProgress (WorkerProgressEvent.mk "p" "write:1" (Task Planner.write) p_retrying None)
    DispatcherSamples.chain_world = (tt, DispatcherSamples.chain_world).
Proof. apply handleWorkerProgress_ignored. left. reflexivity. Defined.

Lemma handleWorkerProgress_missing_row_witness :
  table (snd (handleWorkerProgress
                (WorkerProgressEvent.mk "p" "ghost:1" (Task Planner.write) p_failed (Some "timeout"))
                DispatcherSamples.chain_world)) = table DispatcherSamples.chain_world.
Proof. apply handleWorkerProgress_missing_row. vm_compute. reflexivity. Defined.

Lemma handleWorkerResult_error_missing_row_witness :
  table (snd (handleWorkerResult ∅
                (WorkerResultEvent.mk "p" "ghost:1" (Task Planner.write) JNull (Some "timeout"))
                DispatcherSamples.chain_world)) = table DispatcherSamples.chain_world.
Proof. apply handleWorkerResult_error_missing_row; vm_compute; reflexivity. Defined.

End DispatcherEdges.
